(** * viser: redundancy keys of the message catalog

    A shallow embedding of [src/viser/_messages.py]: the catalog of message
    dataclasses, the [redundancy_key] method with its overrides, and the
    [__post_init__] shape checks of the array-carrying property bags.

    The file has four parts:
    - [Py]: the few Python built-ins the module relies on ([str.join],
      [str(int)], [str(bool)], [str.lower], [os.urandom], [uuid.uuid4]);
    - [Props]: the property dataclasses that carry numpy arrays, with the
      method resolution that decides which [__post_init__] runs;
    - [Messages]: the message variants and [redundancy_key];
    - [Outbox]: the per-client buffer that coalesces by redundancy key. *)

From Stdlib Require Import List String Ascii ZArith NArith Lia Bool.
From Stdlib.Strings Require Import Byte.
From Stdlib Require Import DecimalString DecimalZ PrimFloat.
From Stdlib Require Import Permutation.
Import ListNotations.

Local Open Scope Z_scope.
Local Open Scope string_scope.

(* ------------------------------------------------------------------ *)
(** ** Python built-ins *)
(* ------------------------------------------------------------------ *)

Module Py.

(** [sep.join(parts)] *)
Definition join (sep : string) (parts : list string) : string :=
  String.concat sep parts.

(** [str(z)] for an [int]: decimal digits, with a leading minus sign for
    negative numbers. *)
Definition str_int (z : Z) : string :=
  NilZero.string_of_int (Z.to_int z).

(** [str(b)] for a [bool]. *)
Definition str_bool (b : bool) : string :=
  if b then "True" else "False".

Definition lower_ascii (c : ascii) : ascii :=
  let n := nat_of_ascii c in
  if andb (Nat.leb 65 n) (Nat.leb n 90) then ascii_of_nat (n + 32) else c.

(** [s.lower()] on ASCII text. *)
Fixpoint lower (s : string) : string :=
  match s with
  | EmptyString => EmptyString
  | String c s' => String (lower_ascii c) (lower s')
  end.

(** Python floats are IEEE-754 binary64 values. *)
Definition vec2 : Type := float * float.
Definition vec3 : Type := float * float * float.
Definition quat : Type := float * float * float * float.
Definition rgb : Type := Z * Z * Z.

(** *** Randomness

    [os.urandom] is the only effect in the module.  The operating system's
    generator is a stream of bytes; a computation that draws from it takes
    the stream and returns what is left of it. *)

Definition Entropy : Type := nat -> byte.

Definition Rand (A : Type) : Type := Entropy -> A * Entropy.

Definition ret {A} (a : A) : Rand A := fun w => (a, w).

Definition bind {A B} (c : Rand A) (k : A -> Rand B) : Rand B :=
  fun w => let (a, w') := c w in k a w'.

Definition os_urandom (n : nat) : Rand (list byte) :=
  fun w => (map w (seq 0 n), fun i => w (n + i)%nat).

(** [int.from_bytes(bs, "big")] *)
Definition int_from_bytes (bs : list byte) : Z :=
  fold_left (fun acc b => acc * 256 + Z.of_N (Byte.to_N b)) bs 0.

(** *** [uuid.UUID] *)

Record UUID : Type := { int : Z }.

(** [UUID(bytes=bs, version=v)]: the variant bits are forced to RFC 4122
    and the version nibble to [v]. *)
Definition UUID_init (bs : list byte) (version : Z) : UUID :=
  let i := int_from_bytes bs in
  let i := Z.land i (Z.lnot (Z.shiftl 0xc000 48)) in
  let i := Z.lor i (Z.shiftl 0x8000 48) in
  let i := Z.land i (Z.lnot (Z.shiftl 0xf000 64)) in
  let i := Z.lor i (Z.shiftl version 76) in
  {| int := i |}.

(** [uuid.uuid4()] *)
Definition uuid4 : Rand UUID :=
  bind (os_urandom 16) (fun bs => ret (UUID_init bs 4)).

Definition hex_digit (d : Z) : ascii :=
  match d with
  | 0 => "0" | 1 => "1" | 2 => "2" | 3 => "3" | 4 => "4" | 5 => "5"
  | 6 => "6" | 7 => "7" | 8 => "8" | 9 => "9" | 10 => "a" | 11 => "b"
  | 12 => "c" | 13 => "d" | 14 => "e" | _ => "f"
  end%char.

(** The [k] low hexadecimal digits of [n], most significant first. *)
Fixpoint hex_fixed (k : nat) (n : Z) : string :=
  match k with
  | O => EmptyString
  | S k' => hex_fixed k' (n / 16) ++ String (hex_digit (n mod 16)) EmptyString
  end.

(** ['%032x' % n], for the 128-bit values a [UUID] holds. *)
Definition format_032x (n : Z) : string := hex_fixed 32 n.

(** [str(u)]: the digits in groups of 8-4-4-4-12. *)
Definition UUID_str (u : UUID) : string :=
  let x := format_032x (int u) in
  substring 0 8 x ++ "-" ++ substring 8 4 x ++ "-" ++ substring 12 4 x
    ++ "-" ++ substring 16 4 x ++ "-" ++ substring 20 (length x - 20)%nat x.

(** *** Values of type [Any] *)

Inductive DType : Type := float16 | float32 | float64 | uint8 | uint16 | uint32.

(** A numpy array, as far as the module looks at it: element type and
    shape.  No function of the module reads an element. *)
Record ndarray : Type := { dtype : DType; shape : list nat }.

#[warnings="-register-all"] Inductive PyObject : Type :=
| VNone
| VBool (b : bool)
| VInt (z : Z)
| VFloat (f : float)
| VStr (s : string)
| VBytes (bs : list byte)
| VTuple (items : list PyObject)
| VArray (a : ndarray)
| VInstance (cls : string) (attrs : list (string * PyObject)).

(** A [dict] with string keys, in insertion order. *)
Definition Dict : Type := list (string * PyObject).

(** [d.keys()] *)
Definition keys (d : Dict) : list string := map fst d.

End Py.

(* ------------------------------------------------------------------ *)
(** ** Property dataclasses that carry arrays *)
(* ------------------------------------------------------------------ *)

Module Props.
Import Py.

(** Construction either returns the instance or raises. *)
Inductive Exn : Type := AssertionError | IndexError | AttributeError.

Definition Result (A : Type) : Type := (Exn + A)%type.

Definition ok {A} (a : A) : Result A := inr a.
Definition raise {A} (e : Exn) : Result A := inl e.

Definition rbind {A B} (c : Result A) (k : A -> Result B) : Result B :=
  match c with
  | inl e => inl e
  | inr a => k a
  end.

Local Notation "x <- c ;; k" := (rbind c (fun x => k))
  (at level 61, c at next level, right associativity).
Local Notation "c ;; k" := (rbind c (fun _ => k))
  (at level 61, right associativity).

(** [assert b] *)
Definition assert (b : bool) : Result unit :=
  if b then ok tt else raise AssertionError.

(** [t[i]] on a tuple: negative indices count from the end. *)
Definition getitem (t : list nat) (i : Z) : Result nat :=
  let j := if Z.ltb i 0 then i + Z.of_nat (List.length t) else i in
  if Z.ltb j 0 then raise IndexError
  else match nth_error t (Z.to_nat j) with
       | Some x => ok x
       | None => raise IndexError
       end.

(** [s == t] on shape tuples *)
Fixpoint shape_eqb (s t : list nat) : bool :=
  match s, t with
  | [], [] => true
  | x :: s', y :: t' => Nat.eqb x y && shape_eqb s' t'
  | _, _ => false
  end.

(** [s in candidates] *)
Definition shape_in (s : list nat) (candidates : list (list nat)) : bool :=
  existsb (shape_eqb s) candidates.

Definition DType_eqb (a b : DType) : bool :=
  match a, b with
  | float16, float16 | float32, float32 | float64, float64
  | uint8, uint8 | uint16, uint16 | uint32, uint32 => true
  | _, _ => false
  end.

Module PointCloudProps.
Record t : Type := {
  points : ndarray;
  colors : ndarray;
  point_size : float;
  point_shape : string;
  precision : string
}.

Definition __post_init__ (self : t) : Result unit :=
  (* Check shapes. *)
  assert (Nat.eqb (List.length (shape (points self))) 2) ;;
  n <- getitem (shape (points self)) 0 ;;
  assert (shape_in (shape (colors self)) [[3%nat]; [n; 3%nat]]) ;;
  d <- getitem (shape (points self)) (-1) ;;
  assert (Nat.eqb d 3) ;;
  (* Check dtypes. *)
  (if String.eqb (precision self) "float16"
   then assert (DType_eqb (dtype (points self)) float16)
   else assert (DType_eqb (dtype (points self)) float32)) ;;
  assert (DType_eqb (dtype (colors self)) uint8).
End PointCloudProps.

Module MeshProps.
Record t : Type := {
  vertices : ndarray;
  faces : ndarray;
  color : rgb;
  wireframe : bool;
  opacity : option float;
  flat_shading : bool;
  side : string;
  material : string;
  cast_shadow : bool;
  receive_shadow : bool
}.

Definition __post_init__ (self : t) : Result unit :=
  (* Check shapes. *)
  v <- getitem (shape (vertices self)) (-1) ;;
  assert (Nat.eqb v 3) ;;
  f <- getitem (shape (faces self)) (-1) ;;
  assert (Nat.eqb f 3).
End MeshProps.

Module SkinnedMeshProps.
(** [class SkinnedMeshProps(MeshProps)]: the inherited fields, then the
    four arrays.  ([cast_shadow] and [receive_shadow] are declared again
    and stay the inherited attributes.) *)
Record t : Type := {
  base : MeshProps.t;
  bone_wxyzs : ndarray;
  bone_positions : ndarray;
  skin_indices : ndarray;
  skin_weights : ndarray
}.

Definition __post_init__ (self : t) : Result unit :=
  (* Check shapes. *)
  a <- getitem (shape (bone_wxyzs self)) (-1) ;;
  assert (Nat.eqb a 4) ;;
  b <- getitem (shape (bone_positions self)) (-1) ;;
  assert (Nat.eqb b 3) ;;
  bw <- getitem (shape (bone_wxyzs self)) 0 ;;
  bp <- getitem (shape (bone_positions self)) 0 ;;
  assert (Nat.eqb bw bp) ;;
  v <- getitem (shape (MeshProps.vertices (base self))) (-1) ;;
  assert (Nat.eqb v 3) ;;
  f <- getitem (shape (MeshProps.faces (base self))) (-1) ;;
  assert (Nat.eqb f 3) ;;
  (* [skin_weights is not None]: an array is not [None]. *)
  assert true ;;
  (* [a == b == c] evaluates [c] only when [a == b]. *)
  if shape_eqb (shape (skin_indices self)) (shape (skin_weights self))
  then v0 <- getitem (shape (MeshProps.vertices (base self))) 0 ;;
       assert (shape_eqb (shape (skin_weights self)) [v0; 4%nat])
  else assert false.
End SkinnedMeshProps.

Module _BatchedMeshExtraProps.
Record t : Type := {
  batched_wxyzs : ndarray;
  batched_positions : ndarray;
  batched_scales : option ndarray;
  lod : PyObject
}.

Definition __post_init__ (self : t) : Result unit :=
  (* Check shapes. *)
  a <- getitem (shape (batched_wxyzs self)) (-1) ;;
  assert (Nat.eqb a 4) ;;
  b <- getitem (shape (batched_positions self)) (-1) ;;
  assert (Nat.eqb b 3) ;;
  nw <- getitem (shape (batched_wxyzs self)) 0 ;;
  np <- getitem (shape (batched_positions self)) 0 ;;
  assert (Nat.eqb nw np) ;;
  match batched_scales self with
  | Some scales =>
      n1 <- getitem (shape (batched_wxyzs self)) 0 ;;
      n2 <- getitem (shape (batched_wxyzs self)) 0 ;;
      assert (shape_in (shape scales) [[n1]; [n2; 3%nat]])
  | None => ok tt
  end.
End _BatchedMeshExtraProps.

Module BatchedMeshesProps.
(** [class BatchedMeshesProps(MeshProps, _BatchedMeshExtraProps)] *)
Record t : Type := {
  mesh : MeshProps.t;
  extra : _BatchedMeshExtraProps.t
}.
End BatchedMeshesProps.

Module GlbProps.
Record t : Type := {
  glb_data : list byte;
  scale : float;
  cast_shadow : bool;
  receive_shadow : bool
}.
End GlbProps.

Module BatchedGlbProps.
(** [class BatchedGlbProps(GlbProps, _BatchedMeshExtraProps)] *)
Record t : Type := {
  glb : GlbProps.t;
  extra : _BatchedMeshExtraProps.t
}.
End BatchedGlbProps.

Module BatchedAxesProps.
Record t : Type := {
  batched_wxyzs : ndarray;
  batched_positions : ndarray;
  batched_scales : option ndarray;
  axes_length : float;
  axes_radius : float
}.
End BatchedAxesProps.

Module LineSegmentsProps.
Record t : Type := {
  points : ndarray;
  line_width : float;
  colors : ndarray
}.
End LineSegmentsProps.

Module CubicBezierSplineProps.
Record t : Type := {
  points : ndarray;
  control_points : ndarray;
  line_width : float;
  color : rgb;
  segments : option Z
}.
End CubicBezierSplineProps.

(** *** Which [__post_init__] runs

    The [__init__] that [dataclasses.dataclass] generates stores the fields
    and then calls [self.__post_init__()] when the attribute exists; the
    attribute is looked up along the method resolution order. *)

Inductive Class : Type :=
| C_PointCloudProps | C_MeshProps | C_SkinnedMeshProps
| C__BatchedMeshExtraProps | C_BatchedMeshesProps | C_GlbProps
| C_BatchedGlbProps | C_BatchedAxesProps | C_LineSegmentsProps
| C_CubicBezierSplineProps.

(** The bases in the [class] statement, in order. *)
Definition bases (c : Class) : list Class :=
  match c with
  | C_SkinnedMeshProps => [C_MeshProps]
  | C_BatchedMeshesProps => [C_MeshProps; C__BatchedMeshExtraProps]
  | C_BatchedGlbProps => [C_GlbProps; C__BatchedMeshExtraProps]
  | _ => []
  end.

(** [cls.__mro__] without [object].  Every base above derives from
    [object] alone, so the linearisation is the class and then its bases
    from left to right. *)
Definition mro (c : Class) : list Class := c :: bases c.

(** Whether the body of the class defines [__post_init__]. *)
Definition defines_post_init (c : Class) : bool :=
  match c with
  | C_PointCloudProps | C_MeshProps | C_SkinnedMeshProps
  | C__BatchedMeshExtraProps => true
  | _ => false
  end.

(** The class whose [__post_init__] an instance of [c] gets. *)
Definition lookup_post_init (c : Class) : option Class :=
  find defines_post_init (mro c).

Inductive Instance : Type :=
| I_PointCloudProps (self : PointCloudProps.t)
| I_MeshProps (self : MeshProps.t)
| I_SkinnedMeshProps (self : SkinnedMeshProps.t)
| I__BatchedMeshExtraProps (self : _BatchedMeshExtraProps.t)
| I_BatchedMeshesProps (self : BatchedMeshesProps.t)
| I_GlbProps (self : GlbProps.t)
| I_BatchedGlbProps (self : BatchedGlbProps.t)
| I_BatchedAxesProps (self : BatchedAxesProps.t)
| I_LineSegmentsProps (self : LineSegmentsProps.t)
| I_CubicBezierSplineProps (self : CubicBezierSplineProps.t).

(** [type(self)] *)
Definition class_of (self : Instance) : Class :=
  match self with
  | I_PointCloudProps _ => C_PointCloudProps
  | I_MeshProps _ => C_MeshProps
  | I_SkinnedMeshProps _ => C_SkinnedMeshProps
  | I__BatchedMeshExtraProps _ => C__BatchedMeshExtraProps
  | I_BatchedMeshesProps _ => C_BatchedMeshesProps
  | I_GlbProps _ => C_GlbProps
  | I_BatchedGlbProps _ => C_BatchedGlbProps
  | I_BatchedAxesProps _ => C_BatchedAxesProps
  | I_LineSegmentsProps _ => C_LineSegmentsProps
  | I_CubicBezierSplineProps _ => C_CubicBezierSplineProps
  end.

(** Run the [__post_init__] that class [owner] defines on [self], an
    instance of [owner] or of one of its subclasses. *)
Definition call_post_init (owner : Class) (self : Instance) : Result unit :=
  match owner, self with
  | C_PointCloudProps, I_PointCloudProps p => PointCloudProps.__post_init__ p
  | C_MeshProps, I_MeshProps p => MeshProps.__post_init__ p
  | C_MeshProps, I_SkinnedMeshProps p =>
      MeshProps.__post_init__ (SkinnedMeshProps.base p)
  | C_MeshProps, I_BatchedMeshesProps p =>
      MeshProps.__post_init__ (BatchedMeshesProps.mesh p)
  | C_SkinnedMeshProps, I_SkinnedMeshProps p => SkinnedMeshProps.__post_init__ p
  | C__BatchedMeshExtraProps, I__BatchedMeshExtraProps p =>
      _BatchedMeshExtraProps.__post_init__ p
  | C__BatchedMeshExtraProps, I_BatchedMeshesProps p =>
      _BatchedMeshExtraProps.__post_init__ (BatchedMeshesProps.extra p)
  | C__BatchedMeshExtraProps, I_BatchedGlbProps p =>
      _BatchedMeshExtraProps.__post_init__ (BatchedGlbProps.extra p)
  | _, _ => raise AttributeError
  end.

(** The generated [__init__], applied to the fields already gathered in
    [self]. *)
Definition __init__ (self : Instance) : Result Instance :=
  match lookup_post_init (class_of self) with
  | Some owner => call_post_init owner self ;; ok self
  | None => ok self
  end.

(** An array of the given element type and shape. *)
Definition array (d : DType) (s : list nat) : ndarray :=
  {| dtype := d; shape := s |}.

End Props.

(* ------------------------------------------------------------------ *)
(** ** The message catalog *)
(* ------------------------------------------------------------------ *)

Module Messages.
Import Py.

Local Notation "x <- c ;; k" := (bind c (fun x => k))
  (at level 61, c at next level, right associativity).

(** [ScenePointerEventType = Literal["click", "rect-select"]] *)
Inductive ScenePointerEventType : Type := click | rect_select.

Definition event_type_str (e : ScenePointerEventType) : string :=
  match e with click => "click" | rect_select => "rect-select" end.

(** The dataclasses that derive from [_CreateSceneNodeMessage] (and the
    base itself).  Each adds one [props] field and inherits
    [redundancy_key]. *)
Inductive SceneNodeClass : Type :=
| _CreateSceneNodeMessage | CameraFrustumMessage | GlbMessage | FrameMessage
| BatchedAxesMessage | GridMessage | LabelMessage | Gui3DMessage
| PointCloudMessage | DirectionalLightMessage | AmbientLightMessage
| HemisphereLightMessage | PointLightMessage | RectAreaLightMessage
| SpotLightMessage | MeshMessage | BoxMessage | IcosphereMessage
| SkinnedMeshMessage | BatchedMeshesMessage | BatchedGlbMessage
| TransformControlsMessage | ImageMessage | LineSegmentsMessage
| CatmullRomSplineMessage | CubicBezierSplineMessage | GaussianSplatsMessage.

(** The dataclasses that derive from [_CreateGuiComponentMessage] (and the
    base itself). *)
Inductive GuiComponentClass : Type :=
| _CreateGuiComponentMessage | GuiFolderMessage | GuiMarkdownMessage
| GuiHtmlMessage | GuiProgressBarMessage | GuiPlotlyMessage | GuiUplotMessage
| GuiImageMessage | GuiTabGroupMessage | GuiButtonMessage
| GuiUploadButtonMessage | GuiSliderMessage | GuiMultiSliderMessage
| GuiNumberMessage | GuiRgbMessage | GuiRgbaMessage | GuiCheckboxMessage
| GuiVector2Message | GuiVector3Message | GuiTextMessage | GuiDropdownMessage
| GuiButtonGroupMessage.

(** A message: one constructor per dataclass, fields in declaration order.
    The two families of creation messages are one constructor each, tagged
    with the concrete class; [fields] holds what the subclass adds to the
    base ([props], and for GUI components [value] and [container_uuid]). *)
Inductive Message : Type :=
| CreateSceneNode (cls : SceneNodeClass) (name : string)
    (fields : list (string * PyObject))
| RemoveSceneNodeMessage (name : string)
| CreateGuiComponent (cls : GuiComponentClass) (uuid : string)
    (fields : list (string * PyObject))
| GuiRemoveMessage (uuid : string)
| RunJavascriptMessage (source : string)
| NotificationMessage (mode : string) (uuid : string) (props : PyObject)
| RemoveNotificationMessage (uuid : string)
| ViewerCameraMessage (wxyz : quat) (position : vec3) (fov near far : float)
    (image_height image_width : Z) (look_at up_direction : vec3)
| ScenePointerMessage (event_type : ScenePointerEventType)
    (ray_origin ray_direction : option vec3) (screen_pos : list vec2)
| ScenePointerEnableMessage (enable : bool) (event_type : ScenePointerEventType)
| EnvironmentMapMessage (hdri : option string) (background : bool)
    (background_blurriness background_intensity : float)
    (background_wxyz : quat) (environment_intensity : float)
    (environment_wxyz : quat)
| EnableLightsMessage (enabled cast_shadow : bool)
| SetBoneOrientationMessage (name : string) (bone_index : Z) (wxyz : quat)
| SetBonePositionMessage (name : string) (bone_index : Z) (position : vec3)
| SetCameraPositionMessage (position : vec3)
| SetCameraUpDirectionMessage (position : vec3)
| SetCameraLookAtMessage (look_at : vec3)
| SetCameraNearMessage (near : float)
| SetCameraFarMessage (far : float)
| SetCameraFovMessage (fov : float)
| SetOrientationMessage (name : string) (wxyz : quat)
| SetPositionMessage (name : string) (position : vec3)
| TransformControlsUpdateMessage (name : string) (wxyz : quat)
    (position : vec3)
| TransformControlsDragStartMessage (name : string)
| TransformControlsDragEndMessage (name : string)
| BackgroundImageMessage (media_type : string)
    (rgb_data depth_data : option (list byte))
| SetSceneNodeVisibilityMessage (name : string) (visible : bool)
| SetSceneNodeClickableMessage (name : string) (clickable : bool)
| SceneNodeClickMessage (name : string) (instance_index : option Z)
    (ray_origin ray_direction : vec3) (screen_pos : vec2)
| ResetGuiMessage
| GuiModalMessage (order : float) (uuid : string) (title : string)
| GuiCloseModalMessage (uuid : string)
| GuiUpdateMessage (uuid : string) (updates : Dict)
| SceneNodeUpdateMessage (name : string) (updates : Dict)
| ThemeConfigurationMessage (titlebar_content : option PyObject)
    (control_layout control_width : string)
    (show_logo show_share_button dark_mode : bool)
    (colors : option (list string))
| GetRenderRequestMessage (format : string) (height width quality : Z)
    (wxyz : quat) (position : vec3) (fov : float)
| GetRenderResponseMessage (payload : list byte)
| FileTransferStartUpload (source_component_uuid transfer_uuid : string)
    (filename mime_type : string) (part_count size_bytes : Z)
| FileTransferStartDownload (save_immediately : bool) (transfer_uuid : string)
    (filename mime_type : string) (part_count size_bytes : Z)
| FileTransferPart (source_component_uuid : option string)
    (transfer_uuid : string) (part_index : Z) (content : list byte)
| FileTransferPartAck (source_component_uuid : option string)
    (transfer_uuid : string) (transferred_bytes total_bytes : Z)
| ShareUrlRequest
| ShareUrlUpdated (share_url : option string)
| ShareUrlDisconnect
| SetGuiPanelLabelMessage (label : option string).

Definition SceneNodeClass_name (c : SceneNodeClass) : string :=
  match c with
  | _CreateSceneNodeMessage => "_CreateSceneNodeMessage"
  | CameraFrustumMessage => "CameraFrustumMessage"
  | GlbMessage => "GlbMessage"
  | FrameMessage => "FrameMessage"
  | BatchedAxesMessage => "BatchedAxesMessage"
  | GridMessage => "GridMessage"
  | LabelMessage => "LabelMessage"
  | Gui3DMessage => "Gui3DMessage"
  | PointCloudMessage => "PointCloudMessage"
  | DirectionalLightMessage => "DirectionalLightMessage"
  | AmbientLightMessage => "AmbientLightMessage"
  | HemisphereLightMessage => "HemisphereLightMessage"
  | PointLightMessage => "PointLightMessage"
  | RectAreaLightMessage => "RectAreaLightMessage"
  | SpotLightMessage => "SpotLightMessage"
  | MeshMessage => "MeshMessage"
  | BoxMessage => "BoxMessage"
  | IcosphereMessage => "IcosphereMessage"
  | SkinnedMeshMessage => "SkinnedMeshMessage"
  | BatchedMeshesMessage => "BatchedMeshesMessage"
  | BatchedGlbMessage => "BatchedGlbMessage"
  | TransformControlsMessage => "TransformControlsMessage"
  | ImageMessage => "ImageMessage"
  | LineSegmentsMessage => "LineSegmentsMessage"
  | CatmullRomSplineMessage => "CatmullRomSplineMessage"
  | CubicBezierSplineMessage => "CubicBezierSplineMessage"
  | GaussianSplatsMessage => "GaussianSplatsMessage"
  end.

Definition GuiComponentClass_name (c : GuiComponentClass) : string :=
  match c with
  | _CreateGuiComponentMessage => "_CreateGuiComponentMessage"
  | GuiFolderMessage => "GuiFolderMessage"
  | GuiMarkdownMessage => "GuiMarkdownMessage"
  | GuiHtmlMessage => "GuiHtmlMessage"
  | GuiProgressBarMessage => "GuiProgressBarMessage"
  | GuiPlotlyMessage => "GuiPlotlyMessage"
  | GuiUplotMessage => "GuiUplotMessage"
  | GuiImageMessage => "GuiImageMessage"
  | GuiTabGroupMessage => "GuiTabGroupMessage"
  | GuiButtonMessage => "GuiButtonMessage"
  | GuiUploadButtonMessage => "GuiUploadButtonMessage"
  | GuiSliderMessage => "GuiSliderMessage"
  | GuiMultiSliderMessage => "GuiMultiSliderMessage"
  | GuiNumberMessage => "GuiNumberMessage"
  | GuiRgbMessage => "GuiRgbMessage"
  | GuiRgbaMessage => "GuiRgbaMessage"
  | GuiCheckboxMessage => "GuiCheckboxMessage"
  | GuiVector2Message => "GuiVector2Message"
  | GuiVector3Message => "GuiVector3Message"
  | GuiTextMessage => "GuiTextMessage"
  | GuiDropdownMessage => "GuiDropdownMessage"
  | GuiButtonGroupMessage => "GuiButtonGroupMessage"
  end.

(** [type(self).__name__] *)
Definition type_name (m : Message) : string :=
  match m with
  | CreateSceneNode c _ _ => SceneNodeClass_name c
  | RemoveSceneNodeMessage _ => "RemoveSceneNodeMessage"
  | CreateGuiComponent c _ _ => GuiComponentClass_name c
  | GuiRemoveMessage _ => "GuiRemoveMessage"
  | RunJavascriptMessage _ => "RunJavascriptMessage"
  | NotificationMessage _ _ _ => "NotificationMessage"
  | RemoveNotificationMessage _ => "RemoveNotificationMessage"
  | ViewerCameraMessage _ _ _ _ _ _ _ _ _ => "ViewerCameraMessage"
  | ScenePointerMessage _ _ _ _ => "ScenePointerMessage"
  | ScenePointerEnableMessage _ _ => "ScenePointerEnableMessage"
  | EnvironmentMapMessage _ _ _ _ _ _ _ => "EnvironmentMapMessage"
  | EnableLightsMessage _ _ => "EnableLightsMessage"
  | SetBoneOrientationMessage _ _ _ => "SetBoneOrientationMessage"
  | SetBonePositionMessage _ _ _ => "SetBonePositionMessage"
  | SetCameraPositionMessage _ => "SetCameraPositionMessage"
  | SetCameraUpDirectionMessage _ => "SetCameraUpDirectionMessage"
  | SetCameraLookAtMessage _ => "SetCameraLookAtMessage"
  | SetCameraNearMessage _ => "SetCameraNearMessage"
  | SetCameraFarMessage _ => "SetCameraFarMessage"
  | SetCameraFovMessage _ => "SetCameraFovMessage"
  | SetOrientationMessage _ _ => "SetOrientationMessage"
  | SetPositionMessage _ _ => "SetPositionMessage"
  | TransformControlsUpdateMessage _ _ _ => "TransformControlsUpdateMessage"
  | TransformControlsDragStartMessage _ => "TransformControlsDragStartMessage"
  | TransformControlsDragEndMessage _ => "TransformControlsDragEndMessage"
  | BackgroundImageMessage _ _ _ => "BackgroundImageMessage"
  | SetSceneNodeVisibilityMessage _ _ => "SetSceneNodeVisibilityMessage"
  | SetSceneNodeClickableMessage _ _ => "SetSceneNodeClickableMessage"
  | SceneNodeClickMessage _ _ _ _ _ => "SceneNodeClickMessage"
  | ResetGuiMessage => "ResetGuiMessage"
  | GuiModalMessage _ _ _ => "GuiModalMessage"
  | GuiCloseModalMessage _ => "GuiCloseModalMessage"
  | GuiUpdateMessage _ _ => "GuiUpdateMessage"
  | SceneNodeUpdateMessage _ _ => "SceneNodeUpdateMessage"
  | ThemeConfigurationMessage _ _ _ _ _ _ _ => "ThemeConfigurationMessage"
  | GetRenderRequestMessage _ _ _ _ _ _ _ => "GetRenderRequestMessage"
  | GetRenderResponseMessage _ => "GetRenderResponseMessage"
  | FileTransferStartUpload _ _ _ _ _ _ => "FileTransferStartUpload"
  | FileTransferStartDownload _ _ _ _ _ _ => "FileTransferStartDownload"
  | FileTransferPart _ _ _ _ => "FileTransferPart"
  | FileTransferPartAck _ _ _ _ => "FileTransferPartAck"
  | ShareUrlRequest => "ShareUrlRequest"
  | ShareUrlUpdated _ => "ShareUrlUpdated"
  | ShareUrlDisconnect => "ShareUrlDisconnect"
  | SetGuiPanelLabelMessage _ => "SetGuiPanelLabelMessage"
  end.

(** [getattr(self, "name", None)] *)
Definition getattr_name (m : Message) : option string :=
  match m with
  | CreateSceneNode _ name _
  | RemoveSceneNodeMessage name
  | SetBoneOrientationMessage name _ _
  | SetBonePositionMessage name _ _
  | SetOrientationMessage name _
  | SetPositionMessage name _
  | TransformControlsUpdateMessage name _ _
  | TransformControlsDragStartMessage name
  | TransformControlsDragEndMessage name
  | SetSceneNodeVisibilityMessage name _
  | SetSceneNodeClickableMessage name _
  | SceneNodeClickMessage name _ _ _ _
  | SceneNodeUpdateMessage name _ => Some name
  | _ => None
  end.

(** [getattr(self, "uuid", None)] *)
Definition getattr_uuid (m : Message) : option string :=
  match m with
  | CreateGuiComponent _ uuid _
  | GuiRemoveMessage uuid
  | NotificationMessage _ uuid _
  | RemoveNotificationMessage uuid
  | GuiModalMessage _ uuid _
  | GuiCloseModalMessage uuid
  | GuiUpdateMessage uuid _ => Some uuid
  | _ => None
  end.

(** [parts.append(x)] guarded by [if x is not None] *)
Definition append_if_not_none (parts : list string) (x : option string)
  : list string :=
  match x with
  | Some s => (parts ++ [s])%list
  | None => parts
  end.

(** [Message.redundancy_key], the method every class inherits unless it
    overrides it. *)
Definition Message_redundancy_key (m : Message) : string :=
  let parts := [type_name m] in
  let parts := append_if_not_none parts (getattr_name m) in
  let parts := append_if_not_none parts (getattr_uuid m) in
  join "_" parts.

(** [m.redundancy_key()], after method resolution: the override of the
    class where there is one, [Message.redundancy_key] otherwise. *)
Definition redundancy_key (m : Message) : Rand string :=
  match m with
  | CreateSceneNode _ name _ => ret ("create-or-remove-scene-" ++ name)
  | RemoveSceneNodeMessage name => ret ("create-or-remove-scene-" ++ name)
  | CreateGuiComponent _ uuid _ => ret ("create-or-remove-gui-" ++ uuid)
  | GuiRemoveMessage uuid => ret ("create-or-remove-gui-" ++ uuid)
  | RunJavascriptMessage _ => u <- uuid4 ;; ret (UUID_str u)
  | ScenePointerEnableMessage enable event_type =>
      ret (type_name m ++ "-" ++ event_type_str event_type ++ "-"
             ++ lower (str_bool enable))
  | SetBoneOrientationMessage name bone_index _
  | SetBonePositionMessage name bone_index _ =>
      ret (type_name m ++ "-" ++ name ++ "-" ++ str_int bone_index)
  | GuiModalMessage _ uuid _ => ret ("modal-" ++ uuid)
  | GuiCloseModalMessage uuid => ret ("modal-" ++ uuid)
  | GuiUpdateMessage uuid updates =>
      ret (type_name m ++ "-" ++ uuid ++ "-" ++ join "," (keys updates))
  | SceneNodeUpdateMessage name updates =>
      ret (type_name m ++ "-" ++ name ++ "-" ++ join "," (keys updates))
  | FileTransferStartUpload _ transfer_uuid _ _ _ _
  | FileTransferStartDownload _ transfer_uuid _ _ _ _ =>
      ret (type_name m ++ "-" ++ transfer_uuid)
  | FileTransferPart _ transfer_uuid part_index _ =>
      ret (type_name m ++ "-" ++ transfer_uuid ++ "-" ++ str_int part_index)
  | FileTransferPartAck _ transfer_uuid transferred_bytes _ =>
      ret (type_name m ++ "-" ++ transfer_uuid ++ "-"
             ++ str_int transferred_bytes)
  | _ => ret (Message_redundancy_key m)
  end.

(** Whether the class of [m] (or a base other than [Message]) defines its
    own [redundancy_key]. *)
Definition overrides_redundancy_key (m : Message) : bool :=
  match m with
  | CreateSceneNode _ _ _ | RemoveSceneNodeMessage _
  | CreateGuiComponent _ _ _ | GuiRemoveMessage _
  | RunJavascriptMessage _ | ScenePointerEnableMessage _ _
  | SetBoneOrientationMessage _ _ _ | SetBonePositionMessage _ _ _
  | GuiModalMessage _ _ _ | GuiCloseModalMessage _
  | GuiUpdateMessage _ _ | SceneNodeUpdateMessage _ _
  | FileTransferStartUpload _ _ _ _ _ _
  | FileTransferStartDownload _ _ _ _ _ _
  | FileTransferPart _ _ _ _ | FileTransferPartAck _ _ _ _ => true
  | _ => false
  end.

(** The key one evaluation of [redundancy_key] returns when the system
    generator is in state [w]. *)
Definition key_at (w : Entropy) (m : Message) : string :=
  fst (redundancy_key m w).

End Messages.

(* ------------------------------------------------------------------ *)
(** ** The per-client outbox *)
(* ------------------------------------------------------------------ *)

Module Outbox.
Import Py Messages.

Local Notation "x <- c ;; k" := (bind c (fun x => k))
  (at level 61, c at next level, right associativity).

(** Modelled from the spec: the buffer of an open per-client outbox.  The
    class that implements it lives in [viser.infra], outside the sources at
    hand; section 4.2 of the specification fixes its behaviour.  Entries
    are kept in delivery order, each with the redundancy key computed when
    its message was enqueued. *)
Definition Buffer : Type := list (string * Message).

(** Modelled from the spec: the in-place replacement of [enqueue].  The
    first entry whose key is [k] gets the new message and keeps its slot;
    [None] when no entry has that key. *)
Fixpoint replace_in_place (k : string) (m : Message) (buf : Buffer)
  : option Buffer :=
  match buf with
  | [] => None
  | (k', m') :: rest =>
      if String.eqb k k' then Some ((k', m) :: rest)
      else option_map (cons (k', m')) (replace_in_place k m rest)
  end.

(** Modelled from the spec: [enqueue(message)] of section 4.2: "inserts the
    message; if an existing buffered message has the same redundancy key,
    it is replaced in place (value updated) while its position in delivery
    order is preserved". *)
Definition enqueue (m : Message) (buf : Buffer) : Rand Buffer :=
  k <- redundancy_key m ;;
  ret (match replace_in_place k m buf with
       | Some buf' => buf'
       | None => (buf ++ [(k, m)])%list
       end).

(** Modelled from the spec: [flush()] of section 4.2: drains the buffer in
    insertion order. *)
Definition flush (buf : Buffer) : list Message * Buffer :=
  (map snd buf, []).

(** Enqueue a sequence of messages, oldest first. *)
Fixpoint enqueue_all (ms : list Message) (buf : Buffer) : Rand Buffer :=
  match ms with
  | [] => ret buf
  | m :: ms' => buf' <- enqueue m buf ;; enqueue_all ms' buf'
  end.

(** What the first flush delivers when [ms] were enqueued, in this order,
    into a fresh outbox. *)
Definition delivered (w : Entropy) (ms : list Message) : list Message :=
  fst (flush (fst (enqueue_all ms [] w))).

(** Keys are unique in the buffer, and every entry carries a key that some
    evaluation of [redundancy_key] on its message returned. *)
Definition buffer_inv (buf : Buffer) : Prop :=
  NoDup (map fst buf) /\
  forall k m, In (k, m) buf -> exists w, k = key_at w m.

End Outbox.

(* ------------------------------------------------------------------ *)
(** ** Predicates on strings and messages used in the statements *)
(* ------------------------------------------------------------------ *)

(** Whether the character [c] occurs in [s]. *)
Fixpoint char_in (c : ascii) (s : string) : bool :=
  match s with
  | EmptyString => false
  | String c' s' => Ascii.eqb c c' || char_in c s'
  end.

(** A property name the way attribute names are: not empty, no comma. *)
Definition property_name (s : string) : bool :=
  negb (String.eqb s "") && negb (char_in "," s).

(** The characters of lower-case hexadecimal text. *)
Definition is_lower_hex (c : ascii) : bool :=
  match c with
  | "0" | "1" | "2" | "3" | "4" | "5" | "6" | "7" | "8" | "9"
  | "a" | "b" | "c" | "d" | "e" | "f" => true
  | _ => false
  end%char.

Fixpoint all_hex (s : string) : bool :=
  match s with
  | EmptyString => true
  | String c s' => is_lower_hex c && all_hex s'
  end.

(** Whether the first two characters of [s] are hexadecimal digits, as in
    the text of a UUID. *)
Definition hex_prefix (s : string) : bool :=
  match s with
  | String a (String b _) => is_lower_hex a && is_lower_hex b
  | _ => false
  end.

(** The value of a hexadecimal digit. *)
Definition hex_value (c : ascii) : Z :=
  match c with
  | "0" => 0 | "1" => 1 | "2" => 2 | "3" => 3 | "4" => 4 | "5" => 5
  | "6" => 6 | "7" => 7 | "8" => 8 | "9" => 9 | "a" => 10 | "b" => 11
  | "c" => 12 | "d" => 13 | "e" => 14 | _ => 15
  end%char.

(** The grouping [str(u)] applies to the 32 digits [x] of a UUID. *)
Definition grouped (x : string) : string :=
  substring 0 8 x ++ "-" ++ substring 8 4 x ++ "-" ++ substring 12 4 x
    ++ "-" ++ substring 16 4 x ++ "-"
    ++ substring 20 (String.length x - 20) x.

(** The messages whose [redundancy_key] draws from the system generator. *)
Definition draws_entropy (m : Messages.Message) : bool :=
  match m with
  | Messages.RunJavascriptMessage _ => true
  | _ => false
  end.

(** The group of kinds a message shares its redundancy keys with: the
    creation messages of scene nodes with [RemoveSceneNodeMessage], the
    creation messages of GUI components with [GuiRemoveMessage], the two
    modal messages with each other, and every other kind with itself. *)
Definition key_family (m : Messages.Message) : string :=
  match m with
  | Messages.CreateSceneNode _ _ _
  | Messages.RemoveSceneNodeMessage _ => "create-or-remove-scene"
  | Messages.CreateGuiComponent _ _ _
  | Messages.GuiRemoveMessage _ => "create-or-remove-gui"
  | Messages.GuiModalMessage _ _ _
  | Messages.GuiCloseModalMessage _ => "modal"
  | _ => Messages.type_name m
  end.

(** A property name that is an identifier as far as the separators of the
    keys go: not empty, no comma, no hyphen. *)
Definition identifier_name (s : string) : bool :=
  property_name s && negb (char_in "-" s).

(** The last axis of a shape, if the array has one. *)
Definition last_dim (s : list nat) : option nat := hd_error (rev s).

(** The first axis of a shape, if the array has one. *)
Definition first_dim (s : list nat) : option nat := hd_error s.

(** [d.get(k)] *)
Fixpoint dict_get (d : Py.Dict) (k : string) : option Py.PyObject :=
  match d with
  | [] => None
  | (k', v) :: d' => if String.eqb k k' then Some v else dict_get d' k
  end.

(** [d1 == d2] for two dictionaries: the same keys with the same values,
    in whatever order they were inserted. *)
Definition dict_eq (d1 d2 : Py.Dict) : Prop :=
  forall k, dict_get d1 k = dict_get d2 k.

Definition opt_str (o : option string) : Py.PyObject :=
  match o with Some s => Py.VStr s | None => Py.VNone end.

Definition opt_int (o : option Z) : Py.PyObject :=
  match o with Some z => Py.VInt z | None => Py.VNone end.

Definition opt_bytes (o : option (list byte)) : Py.PyObject :=
  match o with Some b => Py.VBytes b | None => Py.VNone end.

(** The fields of a message whose declared type is [str], [int], [bool],
    [bytes], a [Literal] of strings, or an [Optional] or tuple of these,
    in declaration order.  On such values [==] is equality of the values,
    so two messages that compare equal have the same list.  (Floats,
    arrays, property bags and dictionaries are left out.) *)
Definition plain_fields (m : Messages.Message) : list Py.PyObject :=
  match m with
  | Messages.CreateSceneNode _ name _ => [Py.VStr name]
  | Messages.RemoveSceneNodeMessage name => [Py.VStr name]
  | Messages.CreateGuiComponent _ uuid _ => [Py.VStr uuid]
  | Messages.GuiRemoveMessage uuid => [Py.VStr uuid]
  | Messages.RunJavascriptMessage source => [Py.VStr source]
  | Messages.NotificationMessage mode uuid _ => [Py.VStr mode; Py.VStr uuid]
  | Messages.RemoveNotificationMessage uuid => [Py.VStr uuid]
  | Messages.ViewerCameraMessage _ _ _ _ _ image_height image_width _ _ =>
      [Py.VInt image_height; Py.VInt image_width]
  | Messages.ScenePointerMessage event_type _ _ _ =>
      [Py.VStr (Messages.event_type_str event_type)]
  | Messages.ScenePointerEnableMessage enable event_type =>
      [Py.VBool enable; Py.VStr (Messages.event_type_str event_type)]
  | Messages.EnvironmentMapMessage hdri background _ _ _ _ _ =>
      [opt_str hdri; Py.VBool background]
  | Messages.EnableLightsMessage enabled cast_shadow =>
      [Py.VBool enabled; Py.VBool cast_shadow]
  | Messages.SetBoneOrientationMessage name bone_index _ =>
      [Py.VStr name; Py.VInt bone_index]
  | Messages.SetBonePositionMessage name bone_index _ =>
      [Py.VStr name; Py.VInt bone_index]
  | Messages.SetCameraPositionMessage _ => []
  | Messages.SetCameraUpDirectionMessage _ => []
  | Messages.SetCameraLookAtMessage _ => []
  | Messages.SetCameraNearMessage _ => []
  | Messages.SetCameraFarMessage _ => []
  | Messages.SetCameraFovMessage _ => []
  | Messages.SetOrientationMessage name _ => [Py.VStr name]
  | Messages.SetPositionMessage name _ => [Py.VStr name]
  | Messages.TransformControlsUpdateMessage name _ _ => [Py.VStr name]
  | Messages.TransformControlsDragStartMessage name => [Py.VStr name]
  | Messages.TransformControlsDragEndMessage name => [Py.VStr name]
  | Messages.BackgroundImageMessage media_type rgb_data depth_data =>
      [Py.VStr media_type; opt_bytes rgb_data; opt_bytes depth_data]
  | Messages.SetSceneNodeVisibilityMessage name visible =>
      [Py.VStr name; Py.VBool visible]
  | Messages.SetSceneNodeClickableMessage name clickable =>
      [Py.VStr name; Py.VBool clickable]
  | Messages.SceneNodeClickMessage name instance_index _ _ _ =>
      [Py.VStr name; opt_int instance_index]
  | Messages.ResetGuiMessage => []
  | Messages.GuiModalMessage _ uuid title => [Py.VStr uuid; Py.VStr title]
  | Messages.GuiCloseModalMessage uuid => [Py.VStr uuid]
  | Messages.GuiUpdateMessage uuid _ => [Py.VStr uuid]
  | Messages.SceneNodeUpdateMessage name _ => [Py.VStr name]
  | Messages.ThemeConfigurationMessage _ control_layout control_width
      show_logo show_share_button dark_mode colors =>
      [Py.VStr control_layout; Py.VStr control_width; Py.VBool show_logo;
       Py.VBool show_share_button; Py.VBool dark_mode;
       match colors with
       | Some cs => Py.VTuple (map Py.VStr cs)
       | None => Py.VNone
       end]
  | Messages.GetRenderRequestMessage format height width quality _ _ _ =>
      [Py.VStr format; Py.VInt height; Py.VInt width; Py.VInt quality]
  | Messages.GetRenderResponseMessage payload => [Py.VBytes payload]
  | Messages.FileTransferStartUpload source_component_uuid transfer_uuid
      filename mime_type part_count size_bytes =>
      [Py.VStr source_component_uuid; Py.VStr transfer_uuid;
       Py.VStr filename; Py.VStr mime_type; Py.VInt part_count;
       Py.VInt size_bytes]
  | Messages.FileTransferStartDownload save_immediately transfer_uuid
      filename mime_type part_count size_bytes =>
      [Py.VBool save_immediately; Py.VStr transfer_uuid; Py.VStr filename;
       Py.VStr mime_type; Py.VInt part_count; Py.VInt size_bytes]
  | Messages.FileTransferPart source_component_uuid transfer_uuid
      part_index content =>
      [opt_str source_component_uuid; Py.VStr transfer_uuid;
       Py.VInt part_index; Py.VBytes content]
  | Messages.FileTransferPartAck source_component_uuid transfer_uuid
      transferred_bytes total_bytes =>
      [opt_str source_component_uuid; Py.VStr transfer_uuid;
       Py.VInt transferred_bytes; Py.VInt total_bytes]
  | Messages.ShareUrlRequest => []
  | Messages.ShareUrlUpdated share_url => [opt_str share_url]
  | Messages.ShareUrlDisconnect => []
  | Messages.SetGuiPanelLabelMessage label => [opt_str label]
  end.

(** The [updates] dictionary of a property update. *)
Definition updates_of (m : Messages.Message) : option Py.Dict :=
  match m with
  | Messages.GuiUpdateMessage _ updates
  | Messages.SceneNodeUpdateMessage _ updates => Some updates
  | _ => None
  end.

(* ------------------------------------------------------------------ *)
(** ** Concrete inputs *)
(* ------------------------------------------------------------------ *)

(** A concrete state of the system generator: every byte is zero. *)
Definition zero_entropy : Py.Entropy := fun _ => x00.

(** Another one: the bytes count up. *)
Definition counting_entropy : Py.Entropy :=
  fun i => match Byte.of_nat (i mod 256) with Some b => b | None => x00 end.

(** The scenario of section 8: a node "robot" is created, its position is
    set to (1,0,0) three times, and the node is removed, all before the
    first flush. *)
Definition robot_scenario : list Messages.Message :=
  [Messages.CreateSceneNode Messages.FrameMessage "robot" [];
   Messages.SetPositionMessage "robot" (1, 0, 0)%float;
   Messages.SetPositionMessage "robot" (1, 0, 0)%float;
   Messages.SetPositionMessage "robot" (1, 0, 0)%float;
   Messages.RemoveSceneNodeMessage "robot"].

(** Two quaternions against three positions: batched arrays whose lengths
    do not match. *)
Definition mismatched_extra : Props._BatchedMeshExtraProps.t :=
  {| Props._BatchedMeshExtraProps.batched_wxyzs :=
       Props.array Py.float32 [2; 4]%nat;
     Props._BatchedMeshExtraProps.batched_positions :=
       Props.array Py.float32 [3; 3]%nat;
     Props._BatchedMeshExtraProps.batched_scales := None;
     Props._BatchedMeshExtraProps.lod := Py.VStr "auto" |}.

(** A well-shaped triangle. *)
Definition triangle : Props.MeshProps.t :=
  {| Props.MeshProps.vertices := Props.array Py.float32 [3; 3]%nat;
     Props.MeshProps.faces := Props.array Py.uint32 [1; 3]%nat;
     Props.MeshProps.color := (90, 200, 255);
     Props.MeshProps.wireframe := false;
     Props.MeshProps.opacity := None;
     Props.MeshProps.flat_shading := false;
     Props.MeshProps.side := "front";
     Props.MeshProps.material := "standard";
     Props.MeshProps.cast_shadow := true;
     Props.MeshProps.receive_shadow := true |}.

Definition mismatched_batched_meshes : Props.BatchedMeshesProps.t :=
  {| Props.BatchedMeshesProps.mesh := triangle;
     Props.BatchedMeshesProps.extra := mismatched_extra |}.

Definition mismatched_batched_glb : Props.BatchedGlbProps.t :=
  {| Props.BatchedGlbProps.glb :=
       {| Props.GlbProps.glb_data := [];
          Props.GlbProps.scale := 1%float;
          Props.GlbProps.cast_shadow := true;
          Props.GlbProps.receive_shadow := true |};
     Props.BatchedGlbProps.extra := mismatched_extra |}.

Definition mismatched_batched_axes : Props.BatchedAxesProps.t :=
  {| Props.BatchedAxesProps.batched_wxyzs := Props.array Py.float32 [2; 4]%nat;
     Props.BatchedAxesProps.batched_positions :=
       Props.array Py.float32 [3; 3]%nat;
     Props.BatchedAxesProps.batched_scales := None;
     Props.BatchedAxesProps.axes_length := 1%float;
     Props.BatchedAxesProps.axes_radius := 1%float |}.

(** Two points against three colours. *)
Definition mismatched_point_cloud : Props.PointCloudProps.t :=
  {| Props.PointCloudProps.points := Props.array Py.float32 [2; 3]%nat;
     Props.PointCloudProps.colors := Props.array Py.uint8 [3; 3]%nat;
     Props.PointCloudProps.point_size := 1%float;
     Props.PointCloudProps.point_shape := "circle";
     Props.PointCloudProps.precision := "float32" |}.

(* ------------------------------------------------------------------ *)
(** ** Facts about strings *)
(* ------------------------------------------------------------------ *)

Section StringFacts.

Lemma append_inj_l (p a b : string) : p ++ a = p ++ b -> a = b.
Proof.
  induction p as [|c p IH]; simpl; intro H.
  - exact H.
  - injection H as H. auto.
Qed.

End StringFacts.

(* ------------------------------------------------------------------ *)
(** ** Facts about the outbox *)
(* ------------------------------------------------------------------ *)

Section OutboxFacts.
Import Py Messages Outbox.

Lemma replace_in_place_none k m buf :
  replace_in_place k m buf = None -> ~ In k (map fst buf).
Proof.
  induction buf as [|[k' m'] rest IH]; simpl; intros H.
  - tauto.
  - destruct (String.eqb_spec k k') as [->|Hne]; [discriminate|].
    destruct (replace_in_place k m rest); [discriminate|].
    intros [E|HIn]; [congruence | exact (IH eq_refl HIn)].
Qed.

Lemma replace_in_place_some k m buf buf' :
  replace_in_place k m buf = Some buf' ->
  map fst buf' = map fst buf /\ In (k, m) buf' /\
  forall e, In e buf' -> e = (k, m) \/ In e buf.
Proof.
  revert buf'. induction buf as [|[k' m'] rest IH]; simpl; intros buf' H.
  - discriminate.
  - destruct (String.eqb_spec k k') as [->|Hne].
    + injection H as <-. simpl. repeat split; auto.
      intros e [<-|He]; auto.
    + destruct (replace_in_place k m rest) as [r|] eqn:Hr; [|discriminate].
      injection H as <-. destruct (IH r eq_refl) as (Hk & Hin & Hsub).
      simpl. repeat split.
      * now rewrite Hk.
      * now right.
      * intros e [<-|He]; auto. destruct (Hsub e He); auto.
Qed.

Lemma enqueue_inv m buf w :
  buffer_inv buf -> buffer_inv (fst (enqueue m buf w)).
Proof.
  intros [Hnd Hk]. unfold enqueue, bind, ret.
  destruct (redundancy_key m w) as [k w'] eqn:Hkey. simpl.
  assert (Hkm : k = key_at w m) by (unfold key_at; now rewrite Hkey).
  destruct (replace_in_place k m buf) as [buf'|] eqn:Hr.
  - destruct (replace_in_place_some _ _ _ _ Hr) as (Hmap & _ & Hsub).
    split; [now rewrite Hmap|].
    intros k0 m0 Hin. destruct (Hsub _ Hin) as [E|Hold].
    + injection E as -> ->. now exists w.
    + now apply Hk.
  - apply replace_in_place_none in Hr. split.
    + rewrite map_app. simpl.
      apply NoDup_app; [exact Hnd | repeat constructor; simpl; tauto |].
      intros a Ha [<-|[]]. contradiction.
    + intros k0 m0 Hin. apply in_app_or in Hin as [Hin|[E|[]]].
      * now apply Hk.
      * injection E as <- <-. now exists w.
Qed.

Lemma enqueue_in m buf w :
  In (key_at w m, m) (fst (enqueue m buf w)).
Proof.
  unfold enqueue, bind, ret, key_at.
  destruct (redundancy_key m w) as [k w'] eqn:Hkey. simpl.
  destruct (replace_in_place k m buf) as [buf'|] eqn:Hr.
  - now destruct (replace_in_place_some _ _ _ _ Hr) as (_ & Hin & _).
  - apply in_or_app. right. now left.
Qed.

Lemma enqueue_all_inv ms : forall buf w,
  buffer_inv buf -> buffer_inv (fst (enqueue_all ms buf w)).
Proof.
  induction ms as [|m ms IH]; intros buf w H; simpl.
  - exact H.
  - unfold bind. destruct (enqueue m buf w) as [buf' w'] eqn:He.
    apply IH. change buf' with (fst (buf', w')). rewrite <- He.
    now apply enqueue_inv.
Qed.

Lemma enqueue_all_app ms b : forall buf w,
  enqueue_all (ms ++ [b]) buf w =
  let (buf', w') := enqueue_all ms buf w in enqueue b buf' w'.
Proof.
  induction ms as [|m ms IH]; intros buf w; simpl.
  - unfold bind, ret. now destruct (enqueue b buf w).
  - unfold bind. destruct (enqueue m buf w) as [buf' w']. apply IH.
Qed.

Lemma buffer_inv_nil : buffer_inv [].
Proof. split; [constructor | intros k m []]. Qed.

Lemma NoDup_fst_inj (buf : Buffer) k a b :
  NoDup (map fst buf) -> In (k, a) buf -> In (k, b) buf -> a = b.
Proof.
  induction buf as [|[k' m'] rest IH]; simpl; intros Hnd Ha Hb; [tauto|].
  inversion Hnd as [|? ? Hnotin Hnd']; subst.
  destruct Ha as [Ea|Ha], Hb as [Eb|Hb].
  - congruence.
  - injection Ea as -> ->. exfalso. apply Hnotin.
    apply in_map_iff. now exists (k, b).
  - injection Eb as -> ->. exfalso. apply Hnotin.
    apply in_map_iff. now exists (k, a).
  - now apply IH.
Qed.

(** The message enqueued last is delivered, and it is the only delivered
    message among those whose key is always the key it got. *)
Lemma last_enqueued_wins w ms b :
  In b (delivered w (ms ++ [b])) /\
  forall x, (forall w1 w2, key_at w1 x = key_at w2 b) ->
            In x (delivered w (ms ++ [b])) -> x = b.
Proof.
  unfold delivered, flush. simpl. rewrite enqueue_all_app.
  pose proof (enqueue_all_inv ms [] w buffer_inv_nil) as Hinv.
  destruct (enqueue_all ms [] w) as [buf' w'] eqn:He. simpl in Hinv.
  pose proof (enqueue_inv b buf' w' Hinv) as [Hnd Hk].
  pose proof (enqueue_in b buf' w') as Hb.
  split.
  - apply in_map_iff. now exists (key_at w' b, b).
  - intros x Hx Hin. apply in_map_iff in Hin as [[k x'] [E Hin]].
    simpl in E. subst x'. destruct (Hk _ _ Hin) as [w0 ->].
    rewrite (Hx w0 w') in Hin.
    exact (NoDup_fst_inj _ _ _ _ Hnd Hin Hb).
Qed.

End OutboxFacts.

(* ------------------------------------------------------------------ *)
(** ** Lifecycle messages share a key *)
(* ------------------------------------------------------------------ *)

Section Lifecycle.
Import Py Messages Outbox.

Lemma create_scene_key w cls n fields :
  key_at w (CreateSceneNode cls n fields) = "create-or-remove-scene-" ++ n.
Proof. reflexivity. Qed.

Lemma remove_scene_key w n :
  key_at w (RemoveSceneNodeMessage n) = "create-or-remove-scene-" ++ n.
Proof. reflexivity. Qed.

(** A message enqueued last supersedes every pending message of another
    content whose key is, whatever the generator, the key of the last one. *)
Lemma superseded_by_last w ms a b :
  a <> b -> (forall w1 w2, key_at w1 a = key_at w2 b) ->
  In b (delivered w (ms ++ [b])) /\ ~ In a (delivered w (ms ++ [b])).
Proof.
  intros Hne Hkey. destruct (last_enqueued_wins w ms b) as [Hb Hu].
  split; [exact Hb|]. intro Ha. apply Hne. now apply Hu.
Qed.

(** C1 (amended).  For every node name [n] the creation message of any
    scene-node class and the remove message have the same redundancy key,
    and so have, for every UUID [u], the creation message of any GUI
    component class and the GUI remove message.  Hence, in the outbox, a
    remove enqueued after a create that was not flushed supersedes it: the
    create is not delivered, and the remove is. *)
Theorem C1_create_remove_share_key :
  forall (w w' : Entropy) cls n fields gcls u gfields,
    key_at w (CreateSceneNode cls n fields)
      = key_at w' (RemoveSceneNodeMessage n)
    /\ key_at w (CreateGuiComponent gcls u gfields)
      = key_at w' (GuiRemoveMessage u)
    /\ (forall ms,
          In (RemoveSceneNodeMessage n)
             (delivered w (ms ++ [RemoveSceneNodeMessage n]))
          /\ ~ In (CreateSceneNode cls n fields)
                  (delivered w (ms ++ [RemoveSceneNodeMessage n])))
    /\ (forall ms,
          In (GuiRemoveMessage u) (delivered w (ms ++ [GuiRemoveMessage u]))
          /\ ~ In (CreateGuiComponent gcls u gfields)
                  (delivered w (ms ++ [GuiRemoveMessage u]))).
Proof.
  intros. repeat split; try reflexivity;
    try (apply last_enqueued_wins);
    apply superseded_by_last; (discriminate || reflexivity).
Qed.

(** C1, as stated, fails: with a frame "robot" created and then removed
    before any flush, it is not true that neither message is delivered. *)
Lemma C1_remove_is_delivered :
  let ms := [CreateSceneNode FrameMessage "robot" [];
             RemoveSceneNodeMessage "robot"] in
  ~ (forall m, In m ms -> ~ In m (delivered zero_entropy ms)).
Proof.
  intros ms H. apply (H (RemoveSceneNodeMessage "robot")).
  - right. now left.
  - vm_compute. now left.
Qed.

(** C9.  For every UUID [u] the open-modal and the close-modal message have
    the same redundancy key; hence a close enqueued after an open that was
    not flushed supersedes it in the outbox. *)
Theorem C9_modal_open_close_share_key :
  forall (w w' : Entropy) order u title,
    key_at w (GuiModalMessage order u title)
      = key_at w' (GuiCloseModalMessage u)
    /\ forall ms,
         In (GuiCloseModalMessage u)
            (delivered w (ms ++ [GuiCloseModalMessage u]))
         /\ ~ In (GuiModalMessage order u title)
                 (delivered w (ms ++ [GuiCloseModalMessage u])).
Proof.
  intros. split; [reflexivity|]. intros ms.
  apply superseded_by_last; (discriminate || reflexivity).
Qed.

(** C10.  Two [ScenePointerEnableMessage]s have the same redundancy key
    exactly when they agree on [event_type] and on [enable].  Hence an
    enable followed by a disable for one event type are both delivered, in
    this order, and a repeated message is delivered once. *)
Theorem C10_scene_pointer_enable_key :
  forall (w w' : Entropy) e1 t1 e2 t2,
    (key_at w (ScenePointerEnableMessage e1 t1)
       = key_at w' (ScenePointerEnableMessage e2 t2)
     <-> t1 = t2 /\ e1 = e2)
    /\ delivered w [ScenePointerEnableMessage true t1;
                    ScenePointerEnableMessage false t1]
       = [ScenePointerEnableMessage true t1;
          ScenePointerEnableMessage false t1]
    /\ delivered w [ScenePointerEnableMessage e1 t1;
                    ScenePointerEnableMessage e1 t1]
       = [ScenePointerEnableMessage e1 t1].
Proof.
  intros. split; [|split].
  - split.
    + destruct e1, t1, e2, t2; intro H; try discriminate H; auto.
    + intros [-> ->]. reflexivity.
  - destruct t1; reflexivity.
  - destruct e1, t1; reflexivity.
Qed.

End Lifecycle.

(* ------------------------------------------------------------------ *)
(** ** Creating, moving and removing a node before the first flush *)
(* ------------------------------------------------------------------ *)

Section RobotScenario.
Import Py Messages Outbox.

(** No position update has the key of a remove message, whatever the two
    node names. *)
Lemma position_key_is_not_remove_key w w' n p n' :
  key_at w (SetPositionMessage n p) <> key_at w' (RemoveSceneNodeMessage n').
Proof. discriminate. Qed.

Lemma update_key_is_not_remove_key w w' n d n' :
  key_at w (SceneNodeUpdateMessage n d)
    <> key_at w' (RemoveSceneNodeMessage n').
Proof. discriminate. Qed.

(** C5 (amended).  When a node is created, its position is set three times
    and the node is removed before the first flush, the flush is not
    empty: it delivers exactly two messages, the remove and the last
    position update, in some order.  The create and the first two
    position updates are culled.  The same holds when the position is
    sent as a property update.  In both forms the key of a position
    update differs from the key of the remove, which is why the last
    update is delivered. *)
Theorem C5_robot_scenario_delivers_remove_and_position :
  forall (w : Entropy) cls n fields p1 p2 p3 v1 v2 v3,
    Permutation
      (delivered w [CreateSceneNode cls n fields;
                    SetPositionMessage n p1;
                    SetPositionMessage n p2;
                    SetPositionMessage n p3;
                    RemoveSceneNodeMessage n])
      [RemoveSceneNodeMessage n; SetPositionMessage n p3]
    /\ Permutation
         (delivered w [CreateSceneNode cls n fields;
                       SceneNodeUpdateMessage n [("position", v1)];
                       SceneNodeUpdateMessage n [("position", v2)];
                       SceneNodeUpdateMessage n [("position", v3)];
                       RemoveSceneNodeMessage n])
         [RemoveSceneNodeMessage n;
          SceneNodeUpdateMessage n [("position", v3)]]
    /\ key_at w (SetPositionMessage n p3)
         <> key_at w (RemoveSceneNodeMessage n)
    /\ key_at w (SceneNodeUpdateMessage n [("position", v3)])
         <> key_at w (RemoveSceneNodeMessage n).
Proof.
  intros. unfold delivered.
  split; [|split; [|split]].
  - cbn. repeat (rewrite String.eqb_refl; cbn). apply Permutation_refl.
  - cbn. repeat (rewrite String.eqb_refl; cbn). apply Permutation_refl.
  - apply position_key_is_not_remove_key.
  - apply update_key_is_not_remove_key.
Qed.

(** C5, as stated, fails: the flush of the "robot" scenario is not empty. *)
Lemma C5_robot_flush_not_empty :
  delivered zero_entropy robot_scenario <> [].
Proof. vm_compute. discriminate. Qed.

End RobotScenario.

(* ------------------------------------------------------------------ *)
(** ** Splitting a key at a separator *)
(* ------------------------------------------------------------------ *)

Section Separators.

Lemma char_in_app c a b : char_in c (a ++ b) = char_in c a || char_in c b.
Proof.
  induction a as [|x a IH]; simpl; [reflexivity|].
  now rewrite IH, orb_assoc.
Qed.

Lemma char_in_sep c a b : char_in c (a ++ String c b) = true.
Proof.
  rewrite char_in_app. simpl. rewrite Ascii.eqb_refl. apply orb_true_r.
Qed.

(** The text before the first separator and the text after it are
    determined by the whole. *)
Lemma split_at_first c a b x y :
  char_in c a = false -> char_in c b = false ->
  a ++ String c x = b ++ String c y -> a = b /\ x = y.
Proof.
  revert b. induction a as [|p a IH]; intros [|q b] Ha Hb H; simpl in *.
  - injection H as ->. auto.
  - injection H as <- _. now rewrite Ascii.eqb_refl in Hb.
  - injection H as -> _. now rewrite Ascii.eqb_refl in Ha.
  - injection H as -> H.
    apply orb_false_iff in Ha as [_ Ha]. apply orb_false_iff in Hb as [_ Hb].
    destruct (IH b Ha Hb H) as [-> ->]. auto.
Qed.

(** The same for the last separator. *)
Lemma split_at_last c a b x y :
  char_in c x = false -> char_in c y = false ->
  a ++ String c x = b ++ String c y -> a = b /\ x = y.
Proof.
  revert b. induction a as [|p a IH]; intros [|q b] Hx Hy H; simpl in *.
  - injection H as ->. auto.
  - injection H as _ ->. now rewrite char_in_sep in Hx.
  - injection H as _ <-. now rewrite char_in_sep in Hy.
  - injection H as -> H. destruct (IH b Hx Hy H) as [-> ->]. auto.
Qed.

End Separators.

(* ------------------------------------------------------------------ *)
(** ** Decimal text of integers *)
(* ------------------------------------------------------------------ *)

Section Decimal.
Import Py.

Lemma uint_text_no_minus d : char_in "-" (NilEmpty.string_of_uint d) = false.
Proof. induction d; simpl; auto. Qed.

Lemma str_int_no_minus z : 0 <= z -> char_in "-" (str_int z) = false.
Proof.
  intros Hz. unfold str_int. destruct z as [|p|p]; [reflexivity| |lia].
  simpl. unfold NilZero.string_of_uint.
  destruct (Pos.to_uint p); try reflexivity; apply uint_text_no_minus.
Qed.

Lemma to_int_not_nil z : Z.to_int z <> Decimal.Pos Decimal.Nil
                         /\ Z.to_int z <> Decimal.Neg Decimal.Nil.
Proof.
  destruct z as [|p|p]; simpl; split; try discriminate;
    intros [= H]; exact (DecimalPos.Unsigned.to_uint_nonnil p H).
Qed.

Lemma str_int_inj z z' : str_int z = str_int z' -> z = z'.
Proof.
  unfold str_int. intros H. apply DecimalZ.to_int_inj.
  destruct (to_int_not_nil z) as [Hp Hn], (to_int_not_nil z') as [Hp' Hn'].
  pose proof (NilZero.isi _ Hp Hn) as E.
  rewrite H, (NilZero.isi _ Hp' Hn') in E. congruence.
Qed.

End Decimal.

(* ------------------------------------------------------------------ *)
(** ** File transfer parts *)
(* ------------------------------------------------------------------ *)

Section FileTransfer.
Import Py Messages Outbox.

(** C8.  Two [FileTransferPart] messages whose part indices are not
    negative have the same redundancy key exactly when they agree on the
    transfer UUID and on the part index. *)
Theorem C8_file_transfer_part_key :
  forall (w w' : Entropy) s1 u1 i1 c1 s2 u2 i2 c2,
    0 <= i1 -> 0 <= i2 ->
    (key_at w (FileTransferPart s1 u1 i1 c1)
       = key_at w' (FileTransferPart s2 u2 i2 c2)
     <-> u1 = u2 /\ i1 = i2).
Proof.
  intros w w' s1 u1 i1 c1 s2 u2 i2 c2 H1 H2. unfold key_at. simpl. split.
  - intros H. apply (append_inj_l "FileTransferPart-") in H.
    apply split_at_last in H; try now apply str_int_no_minus.
    destruct H as [-> H]. split; [reflexivity | now apply str_int_inj].
  - intros [-> ->]. reflexivity.
Qed.

(** The bound on the indices is needed: with a negative index the minus
    sign reads as a separator. *)
Lemma negative_part_index_collides :
  key_at zero_entropy (FileTransferPart None "a" (-1) [])
    = key_at zero_entropy (FileTransferPart None "a-" 1 []).
Proof. reflexivity. Qed.

Lemma C8_file_transfer_part_key_witness :
  key_at zero_entropy (FileTransferPart None "t-1" 2 [])
    = key_at zero_entropy (FileTransferPart None "t-1" 2 [x00])
  <-> "t-1" = "t-1" /\ 2 = 2.
Proof.
  apply (C8_file_transfer_part_key zero_entropy zero_entropy); lia.
Defined.

End FileTransfer.

(* ------------------------------------------------------------------ *)
(** ** Property updates *)
(* ------------------------------------------------------------------ *)

Section Updates.
Import Py Messages Outbox.

Lemma join_cons sep a b l :
  join sep (a :: b :: l) = a ++ sep ++ join sep (b :: l).
Proof. reflexivity. Qed.

Lemma property_name_spec s :
  property_name s = true -> s <> "" /\ char_in "," s = false.
Proof.
  unfold property_name. intros H. apply andb_true_iff in H as [H1 H2].
  apply negb_true_iff in H1, H2. split; [|exact H2].
  intros ->. discriminate.
Qed.

(** Joining property names with commas loses nothing. *)
Lemma join_comma_inj l1 : forall l2,
  Forall (fun s => property_name s = true) l1 ->
  Forall (fun s => property_name s = true) l2 ->
  join "," l1 = join "," l2 -> l1 = l2.
Proof.
  induction l1 as [|a l1 IH]; intros [|b l2] F1 F2 H.
  - reflexivity.
  - exfalso. inversion F2 as [|? ? Hb _]; subst.
    apply property_name_spec in Hb as [Hb _].
    destruct l2; [simpl in H; congruence|].
    rewrite join_cons in H. destruct b; [congruence | discriminate].
  - exfalso. inversion F1 as [|? ? Ha _]; subst.
    apply property_name_spec in Ha as [Ha _].
    destruct l1; [simpl in H; congruence|].
    rewrite join_cons in H. destruct a; [congruence | discriminate].
  - inversion F1 as [|? ? Ha F1']; inversion F2 as [|? ? Hb F2']; subst.
    apply property_name_spec in Ha as [_ Ha].
    apply property_name_spec in Hb as [_ Hb].
    destruct l1 as [|a' l1], l2 as [|b' l2].
    + simpl in H. now subst.
    + exfalso. rewrite join_cons in H. simpl in H. subst a.
      now rewrite char_in_sep in Ha.
    + exfalso. rewrite join_cons in H. simpl in H. subst b.
      now rewrite char_in_sep in Hb.
    + rewrite !join_cons in H. simpl in H.
      apply split_at_first in H as [-> H]; auto.
      f_equal. now apply IH.
Qed.

(** C2 (amended).  The redundancy key of a property update is the kind, the
    target and the changed property names joined by commas in the order
    the dictionary holds them (insertion order, not sorted).  When the
    names are not empty and hold no comma, two updates to one target have
    the same key exactly when their dictionaries list the same names in
    the same order. *)
Theorem C2_update_key_by_ordered_names :
  forall (w w' : Entropy) target d1 d2,
    Forall (fun s => property_name s = true) (keys d1) ->
    Forall (fun s => property_name s = true) (keys d2) ->
    key_at w (GuiUpdateMessage target d1)
      = "GuiUpdateMessage-" ++ target ++ "-" ++ join "," (keys d1)
    /\ key_at w (SceneNodeUpdateMessage target d1)
      = "SceneNodeUpdateMessage-" ++ target ++ "-" ++ join "," (keys d1)
    /\ (key_at w (GuiUpdateMessage target d1)
          = key_at w' (GuiUpdateMessage target d2)
        <-> keys d1 = keys d2)
    /\ (key_at w (SceneNodeUpdateMessage target d1)
          = key_at w' (SceneNodeUpdateMessage target d2)
        <-> keys d1 = keys d2).
Proof.
  intros w w' target d1 d2 F1 F2. unfold key_at. simpl.
  split; [reflexivity|]. split; [reflexivity|].
  split; (split; [intros H | intros ->; reflexivity]).
  - apply (append_inj_l "GuiUpdateMessage-") in H.
    apply append_inj_l in H. apply (append_inj_l "-") in H.
    now apply join_comma_inj.
  - apply (append_inj_l "SceneNodeUpdateMessage-") in H.
    apply append_inj_l in H. apply (append_inj_l "-") in H.
    now apply join_comma_inj.
Qed.

Lemma C2_update_key_by_ordered_names_witness :
  key_at zero_entropy
      (GuiUpdateMessage "u" [("position", VNone); ("wxyz", VNone)])
    = "GuiUpdateMessage-u-position,wxyz"
  /\ (key_at zero_entropy
        (SceneNodeUpdateMessage "u" [("position", VNone); ("wxyz", VNone)])
      = key_at zero_entropy
          (SceneNodeUpdateMessage "u" [("wxyz", VInt 2); ("position", VInt 1)])
      <-> ["position"; "wxyz"] = ["wxyz"; "position"]).
Proof.
  pose proof (C2_update_key_by_ordered_names
                zero_entropy zero_entropy "u"
                [("position", VNone); ("wxyz", VNone)]
                [("wxyz", VInt 2); ("position", VInt 1)]) as H.
  destruct H as (Hk & _ & _ & Hs).
  - repeat constructor.
  - repeat constructor.
  - split; [exact Hk | exact Hs].
Defined.

(** The condition on the names is needed: a comma in a name reads as a
    separator. *)
Lemma comma_in_name_collides :
  key_at zero_entropy (GuiUpdateMessage "u" [("a,b", VNone)])
    = key_at zero_entropy (GuiUpdateMessage "u" [("a", VNone); ("b", VNone)]).
Proof. reflexivity. Qed.

(** C2, as stated, fails: two updates to one GUI element that change the
    same set of properties, named in different orders, have different
    redundancy keys. *)
Lemma C2_same_names_different_key :
  let d1 := [("position", VNone); ("wxyz", VNone)] in
  let d2 := [("wxyz", VNone); ("position", VNone)] in
  ~ (key_at zero_entropy (GuiUpdateMessage "u" d1)
       = key_at zero_entropy (GuiUpdateMessage "u" d2)
     <-> (forall x, In x (keys d1) <-> In x (keys d2))).
Proof.
  intros d1 d2 [_ H].
  assert (Hset : forall x, In x (keys d1) <-> In x (keys d2))
    by (intro x; simpl; tauto).
  specialize (H Hset). vm_compute in H. discriminate H.
Qed.

End Updates.

(* ------------------------------------------------------------------ *)
(** ** The inherited key *)
(* ------------------------------------------------------------------ *)

Section DefaultKey.
Import Py Messages Outbox.

(** A class that inherits [Message.redundancy_key] gets that key, and the
    evaluation leaves the generator alone. *)
Lemma inherited_key m w :
  overrides_redundancy_key m = false ->
  redundancy_key m w = (Message_redundancy_key m, w).
Proof. destruct m; intros H; try discriminate H; reflexivity. Qed.




End DefaultKey.

(* ------------------------------------------------------------------ *)
(** ** The text of a UUID *)
(* ------------------------------------------------------------------ *)

Section UuidText.
Import Py.

Lemma hex_digit_is_hex d : is_lower_hex (hex_digit d) = true.
Proof.
  destruct d as [|p|p]; [reflexivity| |reflexivity].
  do 4 (try destruct p as [p|p|]); reflexivity.
Qed.

Lemma hex_value_digit d : 0 <= d < 16 -> hex_value (hex_digit d) = d.
Proof.
  intros H.
  assert (d = 0 \/ d = 1 \/ d = 2 \/ d = 3 \/ d = 4 \/ d = 5 \/ d = 6
          \/ d = 7 \/ d = 8 \/ d = 9 \/ d = 10 \/ d = 11 \/ d = 12
          \/ d = 13 \/ d = 14 \/ d = 15) as E by lia.
  repeat (destruct E as [->|E]; [reflexivity|]). now subst.
Qed.

Lemma string_length_append (a b : string) :
  String.length (a ++ b) = (String.length a + String.length b)%nat.
Proof. induction a; simpl; auto. Qed.

Lemma hex_fixed_length k : forall n, String.length (hex_fixed k n) = k.
Proof.
  induction k as [|k IH]; intros n; simpl; [reflexivity|].
  rewrite string_length_append, IH. simpl. lia.
Qed.

Lemma all_hex_append a b : all_hex (a ++ b) = all_hex a && all_hex b.
Proof.
  induction a as [|c a IH]; simpl; [reflexivity|].
  now rewrite IH, andb_assoc.
Qed.

Lemma hex_fixed_all_hex k : forall n, all_hex (hex_fixed k n) = true.
Proof.
  induction k as [|k IH]; intros n; simpl; [reflexivity|].
  rewrite all_hex_append, IH. simpl. now rewrite hex_digit_is_hex.
Qed.

Lemma append_last_inj a : forall b c d,
  a ++ String c "" = b ++ String d "" -> a = b /\ c = d.
Proof.
  induction a as [|x a IH]; intros [|y b] c d H; simpl in H.
  - injection H as ->. auto.
  - injection H as _ H. destruct b; discriminate H.
  - injection H as _ H. destruct a; discriminate H.
  - injection H as -> H. destruct (IH _ _ _ H) as [-> ->]. auto.
Qed.

(** A number below [16^k] is determined by its [k] hexadecimal digits. *)
Lemma hex_fixed_inj k : forall n n',
  0 <= n < 16 ^ Z.of_nat k -> 0 <= n' < 16 ^ Z.of_nat k ->
  hex_fixed k n = hex_fixed k n' -> n = n'.
Proof.
  induction k as [|k IH]; intros n n' Hn Hn' H.
  - simpl in Hn, Hn'. lia.
  - rewrite Nat2Z.inj_succ, Z.pow_succ_r in Hn, Hn' by lia.
    simpl in H. apply append_last_inj in H as [Hq Hr].
    apply IH in Hq.
    + apply (f_equal hex_value) in Hr.
      rewrite !hex_value_digit in Hr by (apply Z.mod_pos_bound; lia).
      rewrite (Z.div_mod n 16), (Z.div_mod n' 16) by lia. congruence.
    + split; [apply Z.div_pos; lia | apply Z.div_lt_upper_bound; lia].
    + split; [apply Z.div_pos; lia | apply Z.div_lt_upper_bound; lia].
Qed.

Lemma string_length_S s n :
  String.length s = S n ->
  exists c s', s = String c s' /\ String.length s' = n.
Proof.
  destruct s as [|c s']; simpl; intros H; [discriminate|].
  exists c, s'. split; [reflexivity | congruence].
Qed.

Lemma string_length_0 s : String.length s = O -> s = "".
Proof. destruct s; [reflexivity | discriminate]. Qed.

Ltac explode H :=
  repeat (apply string_length_S in H as (? & ? & -> & H));
  apply string_length_0 in H; subst.

Lemma grouped_inj x y :
  String.length x = 32%nat -> String.length y = 32%nat ->
  grouped x = grouped y -> x = y.
Proof.
  intros Hx Hy. explode Hx. explode Hy. cbn. intros H.
  injection H as -> -> -> -> -> -> -> -> -> -> -> -> -> -> -> ->
                  -> -> -> -> -> -> -> -> -> -> -> -> -> -> -> ->.
  reflexivity.
Qed.

Lemma grouped_hex_prefix x :
  String.length x = 32%nat -> all_hex x = true -> hex_prefix (grouped x) = true.
Proof.
  intros Hx. explode Hx. cbn. intros H.
  apply andb_true_iff in H as [-> H]. apply andb_true_iff in H as [-> _].
  reflexivity.
Qed.

End UuidText.

(* ------------------------------------------------------------------ *)
(** ** Version-4 UUIDs *)
(* ------------------------------------------------------------------ *)

Section Uuid4.
Import Py.

Lemma int_from_bytes_snoc bs b :
  int_from_bytes (bs ++ [b]) = int_from_bytes bs * 256 + Z.of_N (Byte.to_N b).
Proof. unfold int_from_bytes. now rewrite fold_left_app. Qed.

Lemma int_from_bytes_range bs :
  0 <= int_from_bytes bs < 256 ^ Z.of_nat (List.length bs).
Proof.
  induction bs as [|b bs IH] using rev_ind.
  - simpl. unfold int_from_bytes. simpl. lia.
  - rewrite int_from_bytes_snoc, length_app. simpl List.length.
    replace (Z.of_nat (List.length bs + 1))
      with (Z.succ (Z.of_nat (List.length bs))) by lia.
    rewrite Z.pow_succ_r by lia.
    pose proof (Byte.to_N_bounded b). lia.
Qed.

Lemma below_pow2_shiftr x n :
  0 <= n -> 0 <= x -> (x < 2 ^ n <-> Z.shiftr x n = 0).
Proof.
  intros Hn Hx. rewrite Z.shiftr_div_pow2 by exact Hn.
  assert (0 < 2 ^ n) by (apply Z.pow_pos_nonneg; lia).
  rewrite Z.div_small_iff by lia. lia.
Qed.

(** A UUID built from 16 bytes holds a 128-bit number. *)
Lemma UUID_init_range bs :
  List.length bs = 16%nat -> 0 <= int (UUID_init bs 4) < 2 ^ 128.
Proof.
  intros Hlen. pose proof (int_from_bytes_range bs) as [H0 H1].
  rewrite Hlen in H1. change (256 ^ Z.of_nat 16) with (2 ^ 128) in H1.
  apply below_pow2_shiftr in H1; [|lia|exact H0].
  unfold UUID_init. cbv zeta. simpl int.
  set (i := int_from_bytes bs) in *.
  assert (Hnn : 0 <= Z.lor
                        (Z.land
                           (Z.lor (Z.land i (Z.lnot (Z.shiftl 49152 48)))
                                  (Z.shiftl 32768 48))
                           (Z.lnot (Z.shiftl 61440 64)))
                        (Z.shiftl 4 76)).
  { apply Z.lor_nonneg. split; [|now vm_compute].
    apply Z.land_nonneg. left. apply Z.lor_nonneg. split; [|now vm_compute].
    apply Z.land_nonneg. now left. }
  split; [exact Hnn|].
  apply below_pow2_shiftr; [lia | exact Hnn |].
  rewrite Z.shiftr_lor, Z.shiftr_land, Z.shiftr_lor, Z.shiftr_land, H1.
  reflexivity.
Qed.

Lemma uuid4_range w : 0 <= int (fst (uuid4 w)) < 2 ^ 128.
Proof. apply UUID_init_range. reflexivity. Qed.

Lemma UUID_str_grouped u : UUID_str u = grouped (format_032x (int u)).
Proof. reflexivity. Qed.

(** [str] tells 128-bit UUIDs apart. *)
Lemma UUID_str_inj u u' :
  0 <= int u < 2 ^ 128 -> 0 <= int u' < 2 ^ 128 ->
  UUID_str u = UUID_str u' -> u = u'.
Proof.
  intros Hu Hu' H. rewrite !UUID_str_grouped in H.
  apply grouped_inj in H; try apply hex_fixed_length.
  apply hex_fixed_inj in H; try assumption.
  destruct u, u'. simpl in H. now subst.
Qed.

Lemma UUID_str_hex_prefix u : hex_prefix (UUID_str u) = true.
Proof.
  rewrite UUID_str_grouped. apply grouped_hex_prefix.
  - apply hex_fixed_length.
  - apply hex_fixed_all_hex.
Qed.

End Uuid4.

(* ------------------------------------------------------------------ *)
(** ** Which keys depend on the generator *)
(* ------------------------------------------------------------------ *)

Section Determinism.
Import Py Messages Outbox.

Lemma run_javascript_key w source :
  redundancy_key (RunJavascriptMessage source) w
    = (UUID_str (fst (uuid4 w)), snd (uuid4 w)).
Proof. reflexivity. Qed.

(** C3 (amended).  [redundancy_key] is defined for every message variant.
    For every variant other than [RunJavascriptMessage] the key is a
    function of the content of the message: an evaluation draws nothing
    from the system generator, and two messages of one kind get the same
    key, whatever the state of the generator at either evaluation,
    whenever they agree on their plain fields (as any two messages that
    compare equal do) and, for property updates, their dictionaries list
    the same names in the same order.  Taken at one message, every
    evaluation returns the same string. *)
Theorem C3_key_is_function_of_content :
  forall (m1 m2 : Message) (w w' : Entropy),
    draws_entropy m1 = false ->
    type_name m1 = type_name m2 ->
    plain_fields m1 = plain_fields m2 ->
    option_map keys (updates_of m1) = option_map keys (updates_of m2) ->
    redundancy_key m1 w = (key_at w' m2, w).
Proof.
  intros m1 m2 w w' D Ht Hp Hu. unfold key_at.
  destruct m1; try discriminate D;
    destruct m2; cbn in Ht;
    try discriminate Ht;
    try (destruct cls; discriminate Ht);
    try (destruct cls; destruct cls0; discriminate Ht);
    cbn in Hp, Hu |- *; unfold ret; congruence.
Qed.

Lemma C3_key_is_function_of_content_witness :
  redundancy_key (SetPositionMessage "robot" (1, 0, 0)%float) zero_entropy
    = (key_at counting_entropy (SetPositionMessage "robot" (0, 0, 0)%float),
       zero_entropy)
  /\ redundancy_key (GuiUpdateMessage "u" [("value", VInt 1)]) zero_entropy
      = (key_at counting_entropy (GuiUpdateMessage "u" [("value", VInt 2)]),
         zero_entropy).
Proof.
  split.
  - apply (C3_key_is_function_of_content
             (SetPositionMessage "robot" (1, 0, 0)%float)
             (SetPositionMessage "robot" (0, 0, 0)%float)
             zero_entropy counting_entropy); reflexivity.
  - apply (C3_key_is_function_of_content
             (GuiUpdateMessage "u" [("value", VInt 1)])
             (GuiUpdateMessage "u" [("value", VInt 2)])
             zero_entropy counting_entropy); reflexivity.
Defined.

(** Two evaluations of [redundancy_key] on one [RunJavascriptMessage], one
    after the other, return different strings. *)
Lemma run_javascript_key_changes :
  let m := RunJavascriptMessage "console.log(1)" in
  let r1 := redundancy_key m counting_entropy in
  let r2 := redundancy_key m (snd r1) in
  fst r1 <> fst r2.
Proof. vm_compute. discriminate. Qed.

(** Two dictionaries filled in different orders compare equal. *)
Lemma reordered_updates_are_equal :
  dict_eq [("position", VNone); ("wxyz", VNone)]
          [("wxyz", VNone); ("position", VNone)].
Proof.
  intros k. simpl.
  destruct (String.eqb_spec k "position") as [->|Hp]; [reflexivity|].
  destruct (String.eqb_spec k "wxyz") as [->|Hw]; reflexivity.
Qed.

(** C3, as stated, fails twice.  Two evaluations of [redundancy_key] on
    one [RunJavascriptMessage] return different strings; and two
    [GuiUpdateMessage]s of equal field values (the same UUID, and
    dictionaries that compare equal) have different keys when the
    dictionaries were filled in different orders. *)
Lemma C3_key_depends_on_draw_and_dict_order :
  (fst (redundancy_key (RunJavascriptMessage "console.log(1)")
          counting_entropy)
   <> fst (redundancy_key (RunJavascriptMessage "console.log(1)")
             (snd (redundancy_key (RunJavascriptMessage "console.log(1)")
                     counting_entropy))))
  /\ (plain_fields
        (GuiUpdateMessage "u" [("position", VNone); ("wxyz", VNone)])
      = plain_fields
          (GuiUpdateMessage "u" [("wxyz", VNone); ("position", VNone)])
      /\ dict_eq [("position", VNone); ("wxyz", VNone)]
                 [("wxyz", VNone); ("position", VNone)]
      /\ key_at zero_entropy
           (GuiUpdateMessage "u" [("position", VNone); ("wxyz", VNone)])
         <> key_at zero_entropy
              (GuiUpdateMessage "u" [("wxyz", VNone); ("position", VNone)])).
Proof.
  split; [exact run_javascript_key_changes|].
  split; [reflexivity|]. split; [exact reordered_updates_are_equal|].
  vm_compute. discriminate.
Qed.

(** Every key that does not come from the generator starts unlike a
    UUID. *)
Lemma content_key_has_no_hex_prefix m w :
  draws_entropy m = false -> hex_prefix (key_at w m) = false.
Proof.
  intros H. destruct m; try discriminate H; reflexivity.
Qed.

(** C4 (amended).  The key of a [RunJavascriptMessage] is the text of a
    freshly drawn version-4 UUID: it is never the key of a message of
    another kind, and two such keys are the same exactly when the two
    draws gave the same UUID.  A [GetRenderResponseMessage] inherits the
    default key, the name of its kind, so any two render responses have
    the same key. *)
Theorem C4_run_javascript_key_is_fresh_uuid :
  forall (w w' : Entropy) source source' m payload payload',
    draws_entropy m = false ->
    key_at w (RunJavascriptMessage source) <> key_at w' m
    /\ (key_at w (RunJavascriptMessage source)
          = key_at w' (RunJavascriptMessage source')
        <-> fst (uuid4 w) = fst (uuid4 w'))
    /\ key_at w (GetRenderResponseMessage payload)
         = key_at w' (GetRenderResponseMessage payload').
Proof.
  intros w w' source source' m payload payload' Hm.
  unfold key_at at 1 3 4. rewrite !run_javascript_key. simpl fst.
  split; [|split].
  - intros E. pose proof (content_key_has_no_hex_prefix m w' Hm) as Hp.
    rewrite <- E, UUID_str_hex_prefix in Hp. discriminate Hp.
  - split.
    + apply UUID_str_inj; apply uuid4_range.
    + intros ->. reflexivity.
  - reflexivity.
Qed.

Lemma C4_run_javascript_key_is_fresh_uuid_witness :
  key_at zero_entropy (RunJavascriptMessage "a")
    <> key_at zero_entropy (GetRenderResponseMessage [x00])
  /\ key_at zero_entropy (GetRenderResponseMessage [x00])
       = key_at zero_entropy (GetRenderResponseMessage [x01]).
Proof.
  destruct (C4_run_javascript_key_is_fresh_uuid
              zero_entropy zero_entropy "a" "a"
              (GetRenderResponseMessage [x00]) [x00] [x01] eq_refl)
    as (H1 & _ & H3).
  split; [exact H1 | exact H3].
Defined.

(** C4, as stated, fails: two render responses with different payloads
    have the same redundancy key. *)
Lemma C4_render_responses_collide :
  GetRenderResponseMessage [x00] <> GetRenderResponseMessage [x01]
  /\ key_at zero_entropy (GetRenderResponseMessage [x00])
       = key_at zero_entropy (GetRenderResponseMessage [x01]).
Proof. split; [discriminate | reflexivity]. Qed.

End Determinism.

(* ------------------------------------------------------------------ *)
(** ** Shape checks at construction *)
(* ------------------------------------------------------------------ *)

Section ShapeChecks.
Import Py Props.

Lemma assert_ok b : assert b = ok tt -> b = true.
Proof. destruct b; [reflexivity | discriminate]. Qed.

Lemma rbind_ok {A B} (c : Result A) (k : A -> Result B) b :
  rbind c k = ok b -> exists a, c = ok a /\ k a = ok b.
Proof.
  destruct c as [e|a]; simpl; intros H; [discriminate|]. now exists a.
Qed.

Lemma shape_eqb_eq s : forall t, shape_eqb s t = true -> s = t.
Proof.
  induction s as [|x s IH]; intros [|y t] H; simpl in H;
    try discriminate; [reflexivity|].
  apply andb_true_iff in H as [Hx Hs]. apply Nat.eqb_eq in Hx.
  f_equal; auto.
Qed.

(** A class without [__post_init__] along its resolution order accepts
    every combination of fields. *)
Lemma init_without_post_init self :
  lookup_post_init (class_of self) = None -> __init__ self = ok self.
Proof. unfold __init__. now intros ->. Qed.

(** Where the check of the batched arrays runs, construction succeeds only
    when there are as many quaternions as positions. *)
Lemma batched_check_counts p :
  _BatchedMeshExtraProps.__post_init__ p = ok tt ->
  exists n,
    getitem (shape (_BatchedMeshExtraProps.batched_wxyzs p)) 0 = ok n
    /\ getitem (shape (_BatchedMeshExtraProps.batched_positions p)) 0 = ok n.
Proof.
  unfold _BatchedMeshExtraProps.__post_init__. intros H.
  apply rbind_ok in H as (a & _ & H). apply rbind_ok in H as (_ & _ & H).
  apply rbind_ok in H as (b & _ & H). apply rbind_ok in H as (_ & _ & H).
  apply rbind_ok in H as (nw & Hw & H). apply rbind_ok in H as (np & Hp & H).
  apply rbind_ok in H as ([] & Hc & _). apply assert_ok, Nat.eqb_eq in Hc.
  subst np. now exists nw.
Qed.

Lemma batched_glb_init_checks p self :
  __init__ (I_BatchedGlbProps p) = ok self ->
  exists n,
    getitem (shape (_BatchedMeshExtraProps.batched_wxyzs
                      (BatchedGlbProps.extra p))) 0 = ok n
    /\ getitem (shape (_BatchedMeshExtraProps.batched_positions
                         (BatchedGlbProps.extra p))) 0 = ok n.
Proof.
  unfold __init__. simpl. intros H. apply rbind_ok in H as ([] & H & _).
  now apply batched_check_counts.
Qed.

(** A point cloud is constructed only with one colour, or one per point. *)
Lemma point_cloud_init_checks p self :
  __init__ (I_PointCloudProps p) = ok self ->
  exists n,
    shape (PointCloudProps.points p) = [n; 3%nat]
    /\ (shape (PointCloudProps.colors p) = [3%nat]
        \/ shape (PointCloudProps.colors p) = [n; 3%nat]).
Proof.
  unfold __init__. simpl. intros H. apply rbind_ok in H as ([] & H & _).
  unfold PointCloudProps.__post_init__ in H.
  apply rbind_ok in H as ([] & Hlen & H). apply assert_ok, Nat.eqb_eq in Hlen.
  destruct (shape (PointCloudProps.points p)) as [|n [|d [|? ?]]];
    try discriminate Hlen.
  assert (E0 : getitem [n; d] 0 = ok n) by reflexivity.
  assert (E1 : getitem [n; d] (-1) = ok d) by reflexivity.
  rewrite E0, E1 in H. simpl rbind in H.
  apply rbind_ok in H as ([] & Hin & H).
  apply rbind_ok in H as ([] & Hd & _).
  apply assert_ok, Nat.eqb_eq in Hd. subst d. exists n. split; [reflexivity|].
  apply assert_ok in Hin. unfold shape_in in Hin. simpl in Hin.
  rewrite orb_false_r in Hin. apply orb_true_iff in Hin as [Hin|Hin];
    apply shape_eqb_eq in Hin; auto.
Qed.

(** C6 (the code at the failing inputs).  [BatchedAxesProps] is constructed
    whatever its arrays are, and [BatchedMeshesProps] is constructed with
    two quaternions against three positions, because [__post_init__]
    resolves to the one of [MeshProps], which looks at the mesh alone; the
    same arrays are refused by [BatchedGlbProps], and a point cloud with
    two points and three colours is refused. *)
Theorem C6_mismatched_batches_are_constructed :
  (forall p, __init__ (I_BatchedAxesProps p) = ok (I_BatchedAxesProps p))
  /\ __init__ (I_BatchedAxesProps mismatched_batched_axes)
       = ok (I_BatchedAxesProps mismatched_batched_axes)
  /\ lookup_post_init C_BatchedMeshesProps = Some C_MeshProps
  /\ (forall mesh extra,
        MeshProps.__post_init__ mesh = ok tt ->
        __init__ (I_BatchedMeshesProps
                    {| BatchedMeshesProps.mesh := mesh;
                       BatchedMeshesProps.extra := extra |})
          = ok (I_BatchedMeshesProps
                  {| BatchedMeshesProps.mesh := mesh;
                     BatchedMeshesProps.extra := extra |}))
  /\ __init__ (I_BatchedMeshesProps mismatched_batched_meshes)
       = ok (I_BatchedMeshesProps mismatched_batched_meshes)
  /\ __init__ (I_BatchedGlbProps mismatched_batched_glb)
       = raise AssertionError
  /\ __init__ (I_PointCloudProps mismatched_point_cloud)
       = raise AssertionError.
Proof.
  repeat split. intros mesh extra H. unfold __init__. simpl. now rewrite H.
Qed.

End ShapeChecks.

(* ------------------------------------------------------------------ *)
(** ** Which messages can share a key *)
(* ------------------------------------------------------------------ *)

Section KeyCollisions.
Import Py Messages.

(** X1.  Lifecycle keys name their entity: a creation message and a remove
    message, or two creation messages, of scene nodes have the same key
    exactly when the node names are the same; so have GUI creation and
    remove messages exactly when the UUIDs are the same, and modal
    messages exactly when the UUIDs are the same. *)
Theorem X1_lifecycle_key_names_entity :
  forall (w w' : Entropy) cls cls' n n' fields fields'
         gcls gcls' u u' gfields gfields' order title,
    (key_at w (CreateSceneNode cls n fields)
       = key_at w' (RemoveSceneNodeMessage n') <-> n = n')
    /\ (key_at w (CreateSceneNode cls n fields)
          = key_at w' (CreateSceneNode cls' n' fields') <-> n = n')
    /\ (key_at w (CreateGuiComponent gcls u gfields)
          = key_at w' (GuiRemoveMessage u') <-> u = u')
    /\ (key_at w (CreateGuiComponent gcls u gfields)
          = key_at w' (CreateGuiComponent gcls' u' gfields') <-> u = u')
    /\ (key_at w (GuiModalMessage order u title)
          = key_at w' (GuiCloseModalMessage u') <-> u = u').
Proof.
  intros. unfold key_at. simpl.
  repeat split; try (intros ->; reflexivity); intros H.
  - exact (append_inj_l "create-or-remove-scene-" _ _ H).
  - exact (append_inj_l "create-or-remove-scene-" _ _ H).
  - exact (append_inj_l "create-or-remove-gui-" _ _ H).
  - exact (append_inj_l "create-or-remove-gui-" _ _ H).
  - exact (append_inj_l "modal-" _ _ H).
Qed.

Lemma run_javascript_key_hex_prefix w source :
  hex_prefix (key_at w (RunJavascriptMessage source)) = true.
Proof.
  unfold key_at. rewrite run_javascript_key. apply UUID_str_hex_prefix.
Qed.

Lemma content_keys_same_family w w' m1 m2 :
  draws_entropy m1 = false -> draws_entropy m2 = false ->
  key_at w m1 = key_at w' m2 -> key_family m1 = key_family m2.
Proof.
  intros D1 D2 H. unfold key_at in H.
  destruct m1; try discriminate D1;
    destruct m2; try discriminate D2;
    try reflexivity; cbn in H; discriminate H.
Qed.

(** X2.  Messages of different kinds have the same redundancy key only
    inside one of the three groups that share keys on purpose (scene-node
    creation and removal, GUI creation and removal, modal opening and
    closing); whatever the names, UUIDs and other fields, and whatever the
    generator returns, two messages with the same key are of one kind or
    of one such group. *)
Theorem X2_keys_collide_only_within_family :
  forall (w w' : Entropy) m1 m2,
    key_at w m1 = key_at w' m2 -> key_family m1 = key_family m2.
Proof.
  intros w w' m1 m2 H.
  destruct (draws_entropy m1) eqn:D1, (draws_entropy m2) eqn:D2.
  - destruct m1; try discriminate D1. destruct m2; try discriminate D2.
    reflexivity.
  - exfalso. destruct m1; try discriminate D1.
    pose proof (run_javascript_key_hex_prefix w source) as Hp.
    rewrite H, (content_key_has_no_hex_prefix _ _ D2) in Hp. discriminate Hp.
  - exfalso. destruct m2; try discriminate D2.
    pose proof (run_javascript_key_hex_prefix w' source) as Hp.
    rewrite <- H, (content_key_has_no_hex_prefix _ _ D1) in Hp.
    discriminate Hp.
  - now apply (content_keys_same_family w w').
Qed.

Lemma X2_keys_collide_only_within_family_witness :
  key_family (CreateSceneNode MeshMessage "robot" [])
    = key_family (RemoveSceneNodeMessage "robot").
Proof.
  apply (X2_keys_collide_only_within_family zero_entropy zero_entropy
           (CreateSceneNode MeshMessage "robot" [])
           (RemoveSceneNodeMessage "robot")).
  reflexivity.
Defined.

End KeyCollisions.

(* ------------------------------------------------------------------ *)
(** ** Keys with an index or a field list after the target *)
(* ------------------------------------------------------------------ *)

Section IndexedKeys.
Import Py Messages.

(** A key of the form [prefix ++ target ++ "-" ++ tail], with no hyphen in
    the tail, determines the target and the tail. *)
Lemma target_tail_key_inj prefix t t' tail tail' :
  char_in "-" tail = false -> char_in "-" tail' = false ->
  prefix ++ t ++ "-" ++ tail = prefix ++ t' ++ "-" ++ tail' ->
  t = t' /\ tail = tail'.
Proof.
  intros Ht Ht' H. apply append_inj_l in H.
  now apply (split_at_last "-").
Qed.

(** X3.  Bone updates are kept apart per skinned mesh and per bone: for
    bone indices that are not negative, two [SetBoneOrientationMessage]s
    (and two [SetBonePositionMessage]s) have the same redundancy key
    exactly when they agree on the node name and on the bone index. *)
Theorem X3_bone_key :
  forall (w w' : Entropy) n1 i1 q1 p1 n2 i2 q2 p2,
    0 <= i1 -> 0 <= i2 ->
    (key_at w (SetBoneOrientationMessage n1 i1 q1)
       = key_at w' (SetBoneOrientationMessage n2 i2 q2)
     <-> n1 = n2 /\ i1 = i2)
    /\ (key_at w (SetBonePositionMessage n1 i1 p1)
          = key_at w' (SetBonePositionMessage n2 i2 p2)
        <-> n1 = n2 /\ i1 = i2).
Proof.
  intros w w' n1 i1 q1 p1 n2 i2 q2 p2 H1 H2. unfold key_at. simpl.
  split; (split; [intros H | intros [-> ->]; reflexivity]).
  - apply (target_tail_key_inj "SetBoneOrientationMessage-") in H;
      try now apply str_int_no_minus.
    destruct H as [-> H]. split; [reflexivity | now apply str_int_inj].
  - apply (target_tail_key_inj "SetBonePositionMessage-") in H;
      try now apply str_int_no_minus.
    destruct H as [-> H]. split; [reflexivity | now apply str_int_inj].
Qed.

Lemma X3_bone_key_witness :
  (key_at zero_entropy
     (SetBoneOrientationMessage "mesh-1" 0 (1, 0, 0, 0)%float)
     = key_at zero_entropy
         (SetBoneOrientationMessage "mesh" 10 (1, 0, 0, 0)%float)
   <-> "mesh-1" = "mesh" /\ 0 = 10)
  /\ (key_at zero_entropy (SetBonePositionMessage "mesh-1" 0 (0, 0, 0)%float)
        = key_at zero_entropy (SetBonePositionMessage "mesh" 10 (1, 1, 1)%float)
      <-> "mesh-1" = "mesh" /\ 0 = 10).
Proof.
  apply (X3_bone_key zero_entropy zero_entropy
           "mesh-1" 0 (1, 0, 0, 0)%float (0, 0, 0)%float
           "mesh" 10 (1, 0, 0, 0)%float (1, 1, 1)%float); lia.
Defined.

(** X4.  File-transfer control messages are kept apart per transfer: two
    start messages of one direction have the same redundancy key exactly
    when they name the same transfer, and, for byte counts that are not
    negative, two acknowledgements have the same key exactly when they
    agree on the transfer and on the number of transferred bytes (so
    acknowledgements of different progress are all delivered). *)
Theorem X4_file_transfer_control_key :
  forall (w w' : Entropy) c1 t1 f1 m1 pc1 sz1 c2 t2 f2 m2 pc2 sz2
         s1 s2 o1 o2 b1 b2 tot1 tot2,
    0 <= b1 -> 0 <= b2 ->
    (key_at w (FileTransferStartUpload c1 t1 f1 m1 pc1 sz1)
       = key_at w' (FileTransferStartUpload c2 t2 f2 m2 pc2 sz2)
     <-> t1 = t2)
    /\ (key_at w (FileTransferStartDownload s1 t1 f1 m1 pc1 sz1)
          = key_at w' (FileTransferStartDownload s2 t2 f2 m2 pc2 sz2)
        <-> t1 = t2)
    /\ (key_at w (FileTransferPartAck o1 t1 b1 tot1)
          = key_at w' (FileTransferPartAck o2 t2 b2 tot2)
        <-> t1 = t2 /\ b1 = b2).
Proof.
  intros. unfold key_at. simpl.
  split; [|split]; (split; [intros E | ]).
  - exact (append_inj_l "FileTransferStartUpload-" _ _ E).
  - intros ->. reflexivity.
  - exact (append_inj_l "FileTransferStartDownload-" _ _ E).
  - intros ->. reflexivity.
  - apply (target_tail_key_inj "FileTransferPartAck-") in E;
      try now apply str_int_no_minus.
    destruct E as [-> E]. split; [reflexivity | now apply str_int_inj].
  - intros [-> ->]. reflexivity.
Qed.

Lemma X4_file_transfer_control_key_witness :
  (key_at zero_entropy (FileTransferStartUpload "c" "t" "a.bin" "x" 2 10)
     = key_at zero_entropy (FileTransferStartUpload "d" "t" "b.bin" "y" 3 20)
   <-> "t" = "t")
  /\ (key_at zero_entropy (FileTransferPartAck None "t" 5 10)
        = key_at zero_entropy (FileTransferPartAck None "t" 10 10)
      <-> "t" = "t" /\ 5 = 10).
Proof.
  destruct (X4_file_transfer_control_key zero_entropy zero_entropy
              "c" "t" "a.bin" "x" 2 10 "d" "t" "b.bin" "y" 3 20
              true false None None 5 10 10 10) as (H1 & _ & H3);
    [lia | lia |].
  split; [exact H1 | exact H3].
Defined.

Lemma identifier_name_spec s :
  identifier_name s = true ->
  property_name s = true /\ char_in "-" s = false.
Proof.
  unfold identifier_name. intros H. apply andb_true_iff in H as [H1 H2].
  now apply negb_true_iff in H2.
Qed.

Lemma join_comma_no_hyphen l :
  Forall (fun s => identifier_name s = true) l ->
  char_in "-" (join "," l) = false.
Proof.
  induction 1 as [|a l Ha _ IH]; [reflexivity|].
  apply identifier_name_spec in Ha as [_ Ha].
  destruct l as [|b l]; [exact Ha|].
  rewrite join_cons, !char_in_app, Ha, IH. reflexivity.
Qed.

Lemma identifier_names_are_property_names l :
  Forall (fun s => identifier_name s = true) l ->
  Forall (fun s => property_name s = true) l.
Proof.
  intros H. eapply Forall_impl; [|exact H].
  intros s Hs. now apply identifier_name_spec in Hs.
Qed.

(** X5.  Updates to different targets never share a key: when the changed
    property names are identifiers (not empty, without comma or hyphen),
    two [GuiUpdateMessage]s (and two [SceneNodeUpdateMessage]s) have the
    same redundancy key exactly when they have the same target and list
    the same property names in the same order, whatever hyphens the
    target holds. *)
Theorem X5_update_key_names_target :
  forall (w w' : Entropy) t1 t2 d1 d2,
    Forall (fun s => identifier_name s = true) (keys d1) ->
    Forall (fun s => identifier_name s = true) (keys d2) ->
    (key_at w (GuiUpdateMessage t1 d1) = key_at w' (GuiUpdateMessage t2 d2)
     <-> t1 = t2 /\ keys d1 = keys d2)
    /\ (key_at w (SceneNodeUpdateMessage t1 d1)
          = key_at w' (SceneNodeUpdateMessage t2 d2)
        <-> t1 = t2 /\ keys d1 = keys d2).
Proof.
  intros w w' t1 t2 d1 d2 F1 F2. unfold key_at. simpl.
  split; (split; [intros H | intros [-> ->]; reflexivity]).
  - apply (target_tail_key_inj "GuiUpdateMessage-") in H;
      try now apply join_comma_no_hyphen.
    destruct H as [-> H]. split; [reflexivity|].
    apply join_comma_inj; auto using identifier_names_are_property_names.
  - apply (target_tail_key_inj "SceneNodeUpdateMessage-") in H;
      try now apply join_comma_no_hyphen.
    destruct H as [-> H]. split; [reflexivity|].
    apply join_comma_inj; auto using identifier_names_are_property_names.
Qed.

Lemma X5_update_key_names_target_witness :
  (key_at zero_entropy (GuiUpdateMessage "a-b" [("value", VInt 1)])
     = key_at zero_entropy (GuiUpdateMessage "a" [("value", VInt 1)])
   <-> "a-b" = "a" /\ ["value"] = ["value"])
  /\ (key_at zero_entropy
        (SceneNodeUpdateMessage "/robot" [("wxyz", VNone); ("position", VNone)])
        = key_at zero_entropy
            (SceneNodeUpdateMessage "/robot" [("wxyz", VInt 0);
                                              ("position", VInt 1)])
      <-> "/robot" = "/robot" /\ ["wxyz"; "position"] = ["wxyz"; "position"]).
Proof.
  split.
  - refine (proj1 (X5_update_key_names_target zero_entropy zero_entropy
                     "a-b" "a" [("value", VInt 1)] [("value", VInt 1)] _ _));
      repeat constructor.
  - refine (proj2 (X5_update_key_names_target zero_entropy zero_entropy
                     "/robot" "/robot"
                     [("wxyz", VNone); ("position", VNone)]
                     [("wxyz", VInt 0); ("position", VInt 1)] _ _));
      repeat constructor.
Defined.

(** The condition on the names is needed: a hyphen in a property name lets
    updates to two targets share a key. *)
Lemma hyphen_in_name_collides :
  key_at zero_entropy (SceneNodeUpdateMessage "/robot-arm" [("x", VNone)])
    = key_at zero_entropy (SceneNodeUpdateMessage "/robot" [("arm-x", VNone)]).
Proof. reflexivity. Qed.

End IndexedKeys.

(* ------------------------------------------------------------------ *)
(** ** What the shape checks accept *)
(* ------------------------------------------------------------------ *)

Section Accepted.
Import Py Props.

Lemma getitem_first s :
  getitem s 0 = match first_dim s with
                | Some n => ok n
                | None => raise IndexError
                end.
Proof. destruct s; reflexivity. Qed.

Lemma getitem_last s :
  getitem s (-1) = match last_dim s with
                   | Some k => ok k
                   | None => raise IndexError
                   end.
Proof.
  unfold getitem, last_dim. change (Z.ltb (-1) 0) with true. cbv iota.
  destruct s as [|x s _] using rev_ind; [reflexivity|].
  rewrite rev_app_distr, length_app.
  change (hd_error (rev [x] ++ rev s)) with (Some x).
  change (List.length [x]) with 1%nat.
  destruct (Z.ltb_spec (-1 + Z.of_nat (List.length s + 1)) 0) as [?|_];
    [lia|].
  replace (Z.to_nat (-1 + Z.of_nat (List.length s + 1))) with (List.length s)
    by lia.
  rewrite nth_error_app2, Nat.sub_diag by lia. reflexivity.
Qed.

Lemma DType_eqb_eq a b : DType_eqb a b = true <-> a = b.
Proof. destruct a, b; simpl; split; intros H; congruence. Qed.

Lemma shape_eqb_refl s : shape_eqb s s = true.
Proof. induction s; simpl; [reflexivity|]. now rewrite Nat.eqb_refl. Qed.

Lemma shape_eqb_iff s t : shape_eqb s t = true <-> s = t.
Proof.
  split; [apply shape_eqb_eq | intros ->; apply shape_eqb_refl].
Qed.

Lemma assert_ok_iff b : assert b = ok tt <-> b = true.
Proof. destruct b; cbv; split; intros H; congruence. Qed.

Lemma init_ok_iff self owner :
  lookup_post_init (class_of self) = Some owner ->
  (__init__ self = ok self <-> call_post_init owner self = ok tt).
Proof.
  unfold __init__. intros ->.
  destruct (call_post_init owner self) as [e|[]]; cbv; split;
    intros H; congruence.
Qed.

End Accepted.

(* ------------------------------------------------------------------ *)
(** ** Exact conditions of construction *)
(* ------------------------------------------------------------------ *)

Section Characterised.
Import Py Props.

Lemma shape_in_two s a b :
  shape_in s [a; b] = true <-> s = a \/ s = b.
Proof.
  unfold shape_in. simpl. rewrite orb_false_r, orb_true_iff, !shape_eqb_iff.
  reflexivity.
Qed.

Lemma point_cloud_post_init_iff p :
  PointCloudProps.__post_init__ p = ok tt
  <-> (exists n, shape (PointCloudProps.points p) = [n; 3%nat]
         /\ (shape (PointCloudProps.colors p) = [3%nat]
             \/ shape (PointCloudProps.colors p) = [n; 3%nat]))
      /\ dtype (PointCloudProps.points p)
           = (if String.eqb (PointCloudProps.precision p) "float16"
              then float16 else float32)
      /\ dtype (PointCloudProps.colors p) = uint8.
Proof.
  unfold PointCloudProps.__post_init__.
  destruct (shape (PointCloudProps.points p)) as [|n [|d [|? ?]]] eqn:Hs;
    try (cbv [List.length Nat.eqb assert rbind raise]; split;
         [discriminate | intros [(? & [=] & _) _]]).
  assert (E0 : getitem [n; d] 0 = ok n) by reflexivity.
  assert (E1 : getitem [n; d] (-1) = ok d) by reflexivity.
  rewrite E0, E1. cbn [List.length Nat.eqb assert rbind ok].
  destruct (shape_in (shape (PointCloudProps.colors p)) [[3%nat]; [n; 3%nat]])
    eqn:Hin; cbn [assert rbind ok raise].
  2:{ split; [discriminate|]. intros [(n' & [= -> _] & Hc) _].
      apply shape_in_two in Hc. congruence. }
  apply shape_in_two in Hin.
  destruct (Nat.eqb_spec d 3) as [->|Hd]; cbn [assert rbind ok raise].
  2:{ split; [discriminate|]. intros [(n' & [= _ E] & _) _]. congruence. }
  assert (Hdt : forall t,
    rbind (assert (DType_eqb (dtype (PointCloudProps.points p)) t))
      (fun _ => assert (DType_eqb (dtype (PointCloudProps.colors p)) uint8))
    = ok tt
    <-> dtype (PointCloudProps.points p) = t
        /\ dtype (PointCloudProps.colors p) = uint8).
  { intros t. rewrite <- !DType_eqb_eq.
    destruct (DType_eqb (dtype (PointCloudProps.points p)) t),
             (DType_eqb (dtype (PointCloudProps.colors p)) uint8);
      cbv; intuition congruence. }
  destruct (String.eqb (PointCloudProps.precision p) "float16");
    rewrite Hdt; split.
  - intros [H1 H2]. split; [now exists n | auto].
  - intros [_ H]. exact H.
  - intros [H1 H2]. split; [now exists n | auto].
  - intros [_ H]. exact H.
Qed.

Lemma shape_cases s :
  (s = [] /\ first_dim s = None /\ last_dim s = None)
  \/ (exists n k, s <> [] /\ first_dim s = Some n /\ last_dim s = Some k).
Proof.
  destruct s as [|n s]; [left; auto|]. right.
  unfold last_dim. destruct (rev (n :: s)) as [|k r] eqn:Hr.
  - apply (f_equal (@List.length nat)) in Hr. rewrite length_rev in Hr.
    discriminate Hr.
  - exists n, k. repeat split. discriminate.
Qed.

Ltac shape_case a n k :=
  let E := fresh "E" in let F := fresh "F" in let L := fresh "L" in
  destruct (shape_cases (shape a)) as [(E & F & L)|(n & k & E & F & L)];
  rewrite ?F, ?L; cbv [assert rbind ok raise];
  [try solve [intuition congruence]|].

Ltac check_eq n k :=
  destruct (Nat.eqb_spec n k); cbv [assert rbind ok raise];
  [subst | try solve [intuition congruence]].

Lemma mesh_post_init_iff p :
  MeshProps.__post_init__ p = ok tt
  <-> last_dim (shape (MeshProps.vertices p)) = Some 3%nat
      /\ last_dim (shape (MeshProps.faces p)) = Some 3%nat.
Proof.
  unfold MeshProps.__post_init__. rewrite !getitem_last.
  shape_case (MeshProps.vertices p) nv kv. check_eq kv 3%nat.
  shape_case (MeshProps.faces p) nf kf. check_eq kf 3%nat.
  intuition congruence.
Qed.

Lemma mesh_post_init_index_error p :
  MeshProps.__post_init__ p = raise IndexError
  <-> shape (MeshProps.vertices p) = []
      \/ (last_dim (shape (MeshProps.vertices p)) = Some 3%nat
          /\ shape (MeshProps.faces p) = []).
Proof.
  unfold MeshProps.__post_init__. rewrite !getitem_last.
  shape_case (MeshProps.vertices p) nv kv. check_eq kv 3%nat.
  shape_case (MeshProps.faces p) nf kf. check_eq kf 3%nat.
  intuition congruence.
Qed.

Lemma batched_post_init_iff p :
  _BatchedMeshExtraProps.__post_init__ p = ok tt
  <-> last_dim (shape (_BatchedMeshExtraProps.batched_wxyzs p)) = Some 4%nat
      /\ last_dim (shape (_BatchedMeshExtraProps.batched_positions p))
           = Some 3%nat
      /\ first_dim (shape (_BatchedMeshExtraProps.batched_wxyzs p))
           = first_dim (shape (_BatchedMeshExtraProps.batched_positions p))
      /\ forall scales,
           _BatchedMeshExtraProps.batched_scales p = Some scales ->
           exists n,
             first_dim (shape (_BatchedMeshExtraProps.batched_wxyzs p))
               = Some n
             /\ (shape scales = [n] \/ shape scales = [n; 3%nat]).
Proof.
  unfold _BatchedMeshExtraProps.__post_init__.
  rewrite !getitem_last, !getitem_first.
  shape_case (_BatchedMeshExtraProps.batched_wxyzs p) nw kw.
  check_eq kw 4%nat.
  shape_case (_BatchedMeshExtraProps.batched_positions p) np kp.
  check_eq kp 3%nat. check_eq nw np.
  destruct (_BatchedMeshExtraProps.batched_scales p) as [scales|].
  - destruct (shape_in (shape scales) [[np]; [np; 3%nat]]) eqn:Hin.
    + apply shape_in_two in Hin. split; [|reflexivity]. intros _.
      repeat split. intros sc [= <-]. now exists np.
    + split; [discriminate|]. intros (_ & _ & _ & H).
      destruct (H scales eq_refl) as (n & [= <-] & Hs).
      apply shape_in_two in Hs. congruence.
  - split; [|reflexivity]. intros _. repeat split. discriminate.
Qed.

Lemma skinned_post_init_iff p :
  SkinnedMeshProps.__post_init__ p = ok tt
  <-> last_dim (shape (SkinnedMeshProps.bone_wxyzs p)) = Some 4%nat
      /\ last_dim (shape (SkinnedMeshProps.bone_positions p)) = Some 3%nat
      /\ first_dim (shape (SkinnedMeshProps.bone_wxyzs p))
           = first_dim (shape (SkinnedMeshProps.bone_positions p))
      /\ last_dim (shape (MeshProps.vertices (SkinnedMeshProps.base p)))
           = Some 3%nat
      /\ last_dim (shape (MeshProps.faces (SkinnedMeshProps.base p)))
           = Some 3%nat
      /\ exists v,
           first_dim (shape (MeshProps.vertices (SkinnedMeshProps.base p)))
             = Some v
           /\ shape (SkinnedMeshProps.skin_indices p) = [v; 4%nat]
           /\ shape (SkinnedMeshProps.skin_weights p) = [v; 4%nat].
Proof.
  unfold SkinnedMeshProps.__post_init__.
  rewrite !getitem_last, !getitem_first.
  shape_case (SkinnedMeshProps.bone_wxyzs p) nw kw. check_eq kw 4%nat.
  shape_case (SkinnedMeshProps.bone_positions p) np kp. check_eq kp 3%nat.
  check_eq nw np.
  shape_case (MeshProps.vertices (SkinnedMeshProps.base p)) nv kv.
  check_eq kv 3%nat.
  shape_case (MeshProps.faces (SkinnedMeshProps.base p)) nf kf.
  check_eq kf 3%nat.
  destruct (shape_eqb (shape (SkinnedMeshProps.skin_indices p))
                      (shape (SkinnedMeshProps.skin_weights p))) eqn:Hi.
  - apply shape_eqb_iff in Hi.
    destruct (shape_eqb (shape (SkinnedMeshProps.skin_weights p))
                        [nv; 4%nat]) eqn:Hw.
    + apply shape_eqb_iff in Hw. split; [|reflexivity]. intros _.
      repeat split. exists nv. repeat split; congruence.
    + split; [discriminate|]. intros (_ & _ & _ & _ & _ & v & [= <-] & _ & H).
      apply shape_eqb_iff in H. congruence.
  - split; [discriminate|]. intros (_ & _ & _ & _ & _ & v & _ & H1 & H2).
    rewrite H1, H2, shape_eqb_refl in Hi. discriminate Hi.
Qed.

Lemma init_raise_iff self owner e :
  lookup_post_init (class_of self) = Some owner ->
  (__init__ self = raise e <-> call_post_init owner self = raise e).
Proof.
  unfold __init__. intros ->.
  destruct (call_post_init owner self) as [e'|[]]; cbv; split;
    intros H; congruence.
Qed.

Lemma point_cloud_post_init_outcomes p :
  PointCloudProps.__post_init__ p = ok tt
  \/ PointCloudProps.__post_init__ p = raise AssertionError.
Proof.
  unfold PointCloudProps.__post_init__.
  destruct (shape (PointCloudProps.points p)) as [|n [|d [|? ?]]];
    try (right; reflexivity).
  assert (E0 : getitem [n; d] 0 = ok n) by reflexivity.
  assert (E1 : getitem [n; d] (-1) = ok d) by reflexivity.
  rewrite E0, E1. cbn [List.length Nat.eqb assert rbind ok].
  destruct (shape_in _ _); [|right; reflexivity].
  destruct (Nat.eqb d 3); [|right; reflexivity].
  destruct (String.eqb _ _); cbn [assert rbind ok];
    (destruct (DType_eqb (dtype (PointCloudProps.points p)) _);
     [|right; reflexivity]);
    (destruct (DType_eqb (dtype (PointCloudProps.colors p)) _);
     [left|right]; reflexivity).
Qed.

(** X6.  A [PointCloudProps] is constructed exactly when [points] has
    shape (N, 3), [colors] has shape (3,) or (N, 3) for the same N, the
    element type of [points] is the one [precision] names ([float16] for
    "float16", [float32] for anything else) and the element type of
    [colors] is [uint8].  Every refusal is an [AssertionError]: the rank
    is checked before an axis is read, so no [IndexError] escapes. *)
Theorem X6_point_cloud_construction :
  forall p : PointCloudProps.t,
    (__init__ (I_PointCloudProps p) = ok (I_PointCloudProps p)
     <-> (exists n, shape (PointCloudProps.points p) = [n; 3%nat]
            /\ (shape (PointCloudProps.colors p) = [3%nat]
                \/ shape (PointCloudProps.colors p) = [n; 3%nat]))
         /\ dtype (PointCloudProps.points p)
              = (if String.eqb (PointCloudProps.precision p) "float16"
                 then float16 else float32)
         /\ dtype (PointCloudProps.colors p) = uint8)
    /\ (__init__ (I_PointCloudProps p) = ok (I_PointCloudProps p)
        \/ __init__ (I_PointCloudProps p) = raise AssertionError).
Proof.
  intros p. split.
  - rewrite (init_ok_iff (I_PointCloudProps p) C_PointCloudProps eq_refl).
    apply point_cloud_post_init_iff.
  - destruct (point_cloud_post_init_outcomes p) as [H|H].
    + left. now apply (init_ok_iff (I_PointCloudProps p) C_PointCloudProps eq_refl).
    + right. now apply (init_raise_iff (I_PointCloudProps p) C_PointCloudProps _ eq_refl).
Qed.

(** X7.  [MeshProps] looks at the last axis only: it is constructed
    exactly when the last axis of [vertices] and the last axis of [faces]
    are 3, whatever the rank (a flat array of three numbers passes), and
    it raises [IndexError], not [AssertionError], exactly when [vertices]
    is zero-dimensional, or [vertices] passes and [faces] is
    zero-dimensional. *)
Theorem X7_mesh_construction :
  forall p : MeshProps.t,
    (__init__ (I_MeshProps p) = ok (I_MeshProps p)
     <-> last_dim (shape (MeshProps.vertices p)) = Some 3%nat
         /\ last_dim (shape (MeshProps.faces p)) = Some 3%nat)
    /\ (__init__ (I_MeshProps p) = raise IndexError
        <-> shape (MeshProps.vertices p) = []
            \/ (last_dim (shape (MeshProps.vertices p)) = Some 3%nat
                /\ shape (MeshProps.faces p) = [])).
Proof.
  intros p. split.
  - rewrite (init_ok_iff (I_MeshProps p) C_MeshProps eq_refl). apply mesh_post_init_iff.
  - rewrite (init_raise_iff (I_MeshProps p) C_MeshProps _ eq_refl).
    apply mesh_post_init_index_error.
Qed.

(** X8.  A [SkinnedMeshProps] is constructed exactly when the last axes of
    [bone_wxyzs] and [bone_positions] are 4 and 3, both have the same
    first axis (as many orientations as positions), the last axes of
    [vertices] and [faces] are 3, and [skin_indices] and [skin_weights]
    both have shape (V, 4) with V the first axis of [vertices].  Although
    its [__post_init__] does not call the one of [MeshProps], whatever it
    accepts passes the check of [MeshProps] too. *)
Theorem X8_skinned_mesh_construction :
  forall p : SkinnedMeshProps.t,
    (__init__ (I_SkinnedMeshProps p) = ok (I_SkinnedMeshProps p)
     <-> last_dim (shape (SkinnedMeshProps.bone_wxyzs p)) = Some 4%nat
         /\ last_dim (shape (SkinnedMeshProps.bone_positions p))
              = Some 3%nat
         /\ first_dim (shape (SkinnedMeshProps.bone_wxyzs p))
              = first_dim (shape (SkinnedMeshProps.bone_positions p))
         /\ last_dim (shape (MeshProps.vertices (SkinnedMeshProps.base p)))
              = Some 3%nat
         /\ last_dim (shape (MeshProps.faces (SkinnedMeshProps.base p)))
              = Some 3%nat
         /\ exists v,
              first_dim (shape (MeshProps.vertices (SkinnedMeshProps.base p)))
                = Some v
              /\ shape (SkinnedMeshProps.skin_indices p) = [v; 4%nat]
              /\ shape (SkinnedMeshProps.skin_weights p) = [v; 4%nat])
    /\ (__init__ (I_SkinnedMeshProps p) = ok (I_SkinnedMeshProps p) ->
        __init__ (I_MeshProps (SkinnedMeshProps.base p))
          = ok (I_MeshProps (SkinnedMeshProps.base p))).
Proof.
  intros p. rewrite (init_ok_iff (I_SkinnedMeshProps p) C_SkinnedMeshProps eq_refl).
  rewrite (init_ok_iff (I_MeshProps (SkinnedMeshProps.base p))
             C_MeshProps eq_refl). simpl call_post_init.
  split; [apply skinned_post_init_iff|].
  intros H. apply skinned_post_init_iff in H.
  apply mesh_post_init_iff. tauto.
Qed.

(** X9.  Where the check of the batched arrays runs ([BatchedGlbProps]),
    construction succeeds exactly when the last axes of [batched_wxyzs]
    and [batched_positions] are 4 and 3, both have the same first axis N,
    and [batched_scales], when given, has shape (N,) or (N, 3); the GLB
    fields are not looked at. *)
Theorem X9_batched_glb_construction :
  forall p : BatchedGlbProps.t,
    __init__ (I_BatchedGlbProps p) = ok (I_BatchedGlbProps p)
    <-> last_dim (shape (_BatchedMeshExtraProps.batched_wxyzs
                           (BatchedGlbProps.extra p))) = Some 4%nat
        /\ last_dim (shape (_BatchedMeshExtraProps.batched_positions
                              (BatchedGlbProps.extra p))) = Some 3%nat
        /\ first_dim (shape (_BatchedMeshExtraProps.batched_wxyzs
                               (BatchedGlbProps.extra p)))
             = first_dim (shape (_BatchedMeshExtraProps.batched_positions
                                   (BatchedGlbProps.extra p)))
        /\ forall scales,
             _BatchedMeshExtraProps.batched_scales (BatchedGlbProps.extra p)
               = Some scales ->
             exists n,
               first_dim (shape (_BatchedMeshExtraProps.batched_wxyzs
                                   (BatchedGlbProps.extra p))) = Some n
               /\ (shape scales = [n] \/ shape scales = [n; 3%nat]).
Proof.
  intros p. rewrite (init_ok_iff (I_BatchedGlbProps p) C__BatchedMeshExtraProps eq_refl).
  apply batched_post_init_iff.
Qed.

End Characterised.
